(** * LibrePCB: DOM elements, value codec, component signals and the
      project-metadata command

    A shallow embedding of

    - [libs/librepcb/common/fileio/domelement.h]
    - [libs/librepcb/library/cmp/componentsignal.cpp]
    - [libs/librepcb/project/metadata/projectmetadata.cpp]
    - [libs/librepcb/project/cmd/cmdprojectsetmetadata.{h,cpp}]

    C++ objects become records, member functions become functions from the
    object (and the arguments) to a [Result]; a mutating member function
    returns the new object.  Exceptions and failed [Q_ASSERT]s are explicit
    outcomes.  Qt's [QMap<QString, QString>] is a [gmap string string]. *)

From Stdlib Require Import ZArith Ascii String List Lia Bool.
From stdpp Require Import base option strings gmap.

Local Open Scope string_scope.
Local Open Scope Z_scope.

(** ** Outcomes: return value, C++ exception, failed assertion *)

(** The text of an exception.  The sources build it with [tr(...)] and
    [QString::arg]; the embedding keeps the message kind and its arguments
    instead of the translated sentence. *)
Inductive Message : Type :=
| NoMessage                             (* exception thrown without a text *)
| StringIsEmpty                         (* "String is empty." *)
| NotAValidBoolean                      (* "Not a valid boolean." *)
| NotAValidInteger                      (* "Not a valid integer." *)
| NotAValidDatetime                     (* "Not a valid datetime." *)
| DeserializeFailed                     (* thrown by T::deserializeFromString *)
| NodeWithChildsHasNoText               (* "A node with child elements cannot have a text." *)
| TextInvalid (text node : string) (inner : Message)
                                        (* "Text %1 in node %2 is invalid: %3" *)
| AttributeNotFound (name node : string)
                                        (* "Attribute %1 not found in node %2." *)
| InvalidAttribute (name value node : string) (inner : Message).
                                        (* "Invalid attribute %1=%2 in node %3: %4" *)

(** The exception classes of [exceptions.h] that the sources throw.  The
    file, line and document-path arguments are diagnostics and are left out;
    [FileParseError] keeps its invalid-content argument and its message. *)
Inductive Exception : Type :=
| RuntimeError (msg : Message)
| LogicError (msg : Message)
| FileParseError (invalidFileContent : string) (msg : Message).

Definition getMsg (e : Exception) : Message :=
  match e with
  | RuntimeError m => m
  | LogicError m => m
  | FileParseError _ m => m
  end.

(** [Return a]: normal completion.  [Throw e]: a C++ exception leaves the
    function.  [AssertFailed]: a [Q_ASSERT] does not hold; this is the only
    way a [noexcept] member function can refuse a call, and it is what the
    specification calls a precondition violation. *)
Inductive Result (A : Type) : Type :=
| Return (a : A)
| Throw (e : Exception)
| AssertFailed.
Arguments Return {A} a.
Arguments Throw {A} e.
Arguments AssertFailed {A}.

Global Instance Result_ret : MRet Result := fun A a => Return a.

Global Instance Result_bind : MBind Result := fun A B k r =>
  match r with
  | Return a => k a
  | Throw e => Throw e
  | AssertFailed => AssertFailed
  end.

(** [Q_ASSERT(cond)] followed by the rest of the function body.  Qt checks
    the condition in a build without [QT_NO_DEBUG] and stops the program
    when it does not hold; the model is that of such a build. *)
Definition Q_ASSERT {A} (cond : bool) (k : Result A) : Result A :=
  if cond then k else AssertFailed.

(** [try { body } catch (const Exception& e) { throw handler(e); }] *)
Definition try_rethrow {A} (body : Result A) (handler : Exception -> Exception)
  : Result A :=
  match body with
  | Throw e => Throw (handler e)
  | r => r
  end.

(** The specification's "fails PreconditionViolation", for the operations
    whose bodies are not among the sources. *)
Definition PreconditionViolation {A} : Result A := AssertFailed.

(** ** QString

    A [QString] is modelled by a [string]; its characters are the Latin-1
    range of [QChar]. *)
Module QString.

Definition isEmpty (s : string) : bool :=
  match s with EmptyString => true | String _ _ => false end.

Definition eqb (a b : string) : bool := bool_decide (a = b).

Definition code (c : ascii) : Z := Z.of_N (N_of_ascii c).

(** [QChar::isDigit] on the Latin-1 range. *)
Definition isDigit (c : ascii) : bool := (48 <=? code c) && (code c <=? 57).

(** [QChar::isSpace] on the Latin-1 range. *)
Definition isSpace (c : ascii) : bool :=
  (code c =? 32) || ((9 <=? code c) && (code c <=? 13))
  || (code c =? 133) || (code c =? 160).

(** [p] holds of every character of [s]. *)
Fixpoint all (p : ascii -> bool) (s : string) : bool :=
  match s with
  | EmptyString => true
  | String c s' => p c && all p s'
  end.

Definition digitChar (d : Z) : ascii := ascii_of_N (Z.to_N (48 + d)).

(** The decimal digits of [n >= 0], most significant first, in front of
    [acc].  [fuel] bounds the number of digits. *)
Fixpoint digits (fuel : nat) (n : Z) (acc : string) : string :=
  match fuel with
  | O => acc
  | S f =>
      let acc' := String (digitChar (n mod 10)) acc in
      if n <? 10 then acc' else digits f (n / 10) acc'
  end.

(** [QString::number(int)]: base 10, a minus sign for negative numbers.  A
    32-bit [int] has at most ten digits. *)
Definition number (n : Z) : string :=
  if n <? 0 then String "-" (digits 10 (- n) "") else digits 10 n "".

(** [QString::asprintf("%0<w>d", n)] for [n >= 0]: at least [w] digits,
    padded with zeros on the left. *)
Fixpoint zeros (k : nat) (s : string) : string :=
  match k with O => s | S k' => String "0" (zeros k' s) end.

Definition padded (w : nat) (n : Z) : string :=
  let s := digits 19 n "" in
  zeros (w - String.length s) s.

Fixpoint dropWhile (p : ascii -> bool) (s : string) : string :=
  match s with
  | EmptyString => EmptyString
  | String c s' => if p c then dropWhile p s' else s
  end.

Fixpoint rev_append (s acc : string) : string :=
  match s with
  | EmptyString => acc
  | String c s' => rev_append s' (String c acc)
  end.

Definition rev (s : string) : string := rev_append s "".

(** [QString::trimmed]: white space removed from both ends. *)
Definition trimmed (s : string) : string :=
  rev (dropWhile isSpace (rev (dropWhile isSpace s))).

(** An unsigned decimal numeral: every character a digit; [acc] is the value
    read so far. *)
Fixpoint parseDigits (s : string) (acc : Z) : option Z :=
  match s with
  | EmptyString => Some acc
  | String c s' =>
      if isDigit c then parseDigits s' (10 * acc + (code c - 48)) else None
  end.

Definition parseUnsigned (s : string) : option Z :=
  match s with
  | EmptyString => None
  | _ => parseDigits s 0
  end.

Definition INT_MIN : Z := - 2 ^ 31.
Definition INT_MAX : Z := 2 ^ 31 - 1.
Definition isInt (n : Z) : Prop := INT_MIN <= n <= INT_MAX.
Definition isIntb (n : Z) : bool := (INT_MIN <=? n) && (n <=? INT_MAX).

(** [QString::toInt(&ok)], base 10, in the C locale: surrounding white space
    is ignored, one sign is allowed, at least one digit is required, nothing
    may follow the digits, and the value must fit an [int].  [None] stands
    for [ok == false]. *)
Definition toInt (s : string) : option Z :=
  let t := trimmed s in
  let signed :=
    match t with
    | String "-" r => option_map Z.opp (parseUnsigned r)
    | String "+" r => parseUnsigned r
    | _ => parseUnsigned t
    end in
  match signed with
  | Some n => if isIntb n then Some n else None
  | None => None
  end.

(** [QString::mid(pos, n)] and [QString::at(i)]. *)
Definition mid (s : string) (pos n : nat) : string := String.substring pos n s.
Definition at_ (s : string) (i : nat) : option ascii := String.get i s.

End QString.

(** ** QDateTime

    Qt keeps a date-time as an instant together with a time spec;
    [toUTC()] and [toLocalTime()] keep the instant and change the spec, and
    [operator==] compares instants.  The model keeps the instant as its
    calendar fields in UTC.  The host's time zone is taken to be UTC, so the
    local fields of an instant are its UTC fields. *)
Module QDateTime.

Inductive TimeSpec : Type := LocalTime | UTC.

Record t : Type := mk {
  year : Z; month : Z; day : Z;
  hour : Z; minute : Z; second : Z; msec : Z;
  timeSpec : TimeSpec
}.

(** [QDateTime()]: the null date-time, which is not valid. *)
Definition null : t := mk 0 0 0 0 0 0 0 LocalTime.

(** [QDate::isLeapYear]: there is no year 0. *)
Definition isLeapYear (y : Z) : bool :=
  let y := if y <? 1 then y + 1 else y in
  ((y mod 4 =? 0) && negb (y mod 100 =? 0)) || (y mod 400 =? 0).

Definition monthDays (m : Z) : Z :=
  if m =? 2 then 28
  else if (m =? 4) || (m =? 6) || (m =? 9) || (m =? 11) then 30
  else 31.

(** [QDate::isValid(year, month, day)] *)
Definition QDate_isValid (y m d : Z) : bool :=
  negb (y =? 0)
  && ((0 <? d) && (0 <? m) && (m <=? 12))
  && ((d <=? monthDays m) || ((d =? 29) && (m =? 2) && isLeapYear y)).

(** [QTime::isValid(h, m, s, ms)] *)
Definition QTime_isValid (h m s ms : Z) : bool :=
  ((0 <=? h) && (h <? 24)) && ((0 <=? m) && (m <? 60))
  && ((0 <=? s) && (s <? 60)) && ((0 <=? ms) && (ms <? 1000)).

Definition isValid (d : t) : bool :=
  QDate_isValid (year d) (month d) (day d)
  && QTime_isValid (hour d) (minute d) (second d) (msec d).

Definition toUTC (d : t) : t :=
  mk (year d) (month d) (day d) (hour d) (minute d) (second d) (msec d) UTC.

Definition toLocalTime (d : t) : t :=
  mk (year d) (month d) (day d) (hour d) (minute d) (second d) (msec d)
     LocalTime.

(** [operator==]: the same instant, whatever the time specs. *)
Definition eqb (a b : t) : bool :=
  (year a =? year b) && (month a =? month b) && (day a =? day b)
  && (hour a =? hour b) && (minute a =? minute b)
  && (second a =? second b) && (msec a =? msec b).

(** The instant without its milliseconds, as a local date-time: what is left
    of a date-time after it was written with [Qt::ISODate] and read again. *)
Definition wholeSeconds (d : t) : t :=
  mk (year d) (month d) (day d) (hour d) (minute d) (second d) 0 LocalTime.

(** [toString(Qt::ISODate)]: [yyyy-MM-ddTHH:mm:ss], followed by [Z] for
    UTC.  Milliseconds are not written.  The format exists for the years 0
    to 9999 only; outside of them, and for an invalid date-time, the result
    is the empty string. *)
Definition toString_ISODate (d : t) : string :=
  if negb (isValid d) then ""
  else if negb ((0 <=? year d) && (year d <=? 9999)) then ""
  else
    QString.padded 4 (year d) +:+ "-" +:+ QString.padded 2 (month d) +:+ "-"
    +:+ QString.padded 2 (day d) +:+ "T"
    +:+ QString.padded 2 (hour d) +:+ ":" +:+ QString.padded 2 (minute d)
    +:+ ":" +:+ QString.padded 2 (second d)
    +:+ match timeSpec d with UTC => "Z" | LocalTime => "" end.

(** [QString::toInt()] without [ok]: 0 when the conversion fails. *)
Definition toIntOr0 (s : string) : Z := default 0 (QString.toInt s).

Definition isDigitAt (s : string) (i : nat) : bool :=
  match QString.at_ s i with Some c => QString.isDigit c | None => false end.

Definition isCharAt (s : string) (i : nat) (c : ascii) : bool :=
  match QString.at_ s i with Some c' => bool_decide (c' = c) | None => false end.

(** [QDate::fromString(s, Qt::ISODate)] on the first ten characters:
    the year, month and day of a valid date, or [None]. *)
Definition QDate_fromString (s : string) : option (Z * Z * Z) :=
  if (String.length s <? 10)%nat || isDigitAt s 4 || isDigitAt s 7 then None
  else
    let y := toIntOr0 (QString.mid s 0 4) in
    if (y <=? 0) || (9999 <? y) then None
    else
      let m := toIntOr0 (QString.mid s 5 2) in
      let d := toIntOr0 (QString.mid s 8 2) in
      if QDate_isValid y m d then Some (y, m, d) else None.

Fixpoint contains (c : ascii) (s : string) : bool :=
  match s with
  | EmptyString => false
  | String c' s' => bool_decide (c' = c) || contains c s'
  end.

(** The time of day [HH:mm] or [HH:mm:ss] of an ISO 8601 text. *)
Definition fromIsoTimeString (s : string) : option (Z * Z * Z) :=
  let size := String.length s in
  if (size <? 5)%nat then None
  else
    match QString.toInt (QString.mid s 0 2), QString.toInt (QString.mid s 3 2) with
    | Some h, Some m =>
        if (size =? 5)%nat then
          if QTime_isValid h m 0 0 then Some (h, m, 0) else None
        else if isCharAt s 5 "," || isCharAt s 5 "." then None
        else
          match QString.toInt (QString.mid s 6 2) with
          | Some sec =>
              if (8 <? size)%nat && (isCharAt s 8 "," || isCharAt s 8 ".")
              then None
              else if QTime_isValid h m sec 0 then Some (h, m, sec) else None
          | None => None
          end
    | _, _ => None
    end.

(** [QDateTime::fromString(s, Qt::ISODate)].  The model reads the forms
    [yyyy-MM-dd], [yyyy-MM-ddTHH:mm] and [yyyy-MM-ddTHH:mm:ss], each with or
    without the UTC designator [Z]; this covers every text that
    [toString_ISODate] writes.  Texts with an offset from UTC, with a
    fraction of a minute or of a second, or with the hour 24 are outside the
    model and are read as the null date-time. *)
Definition fromString_ISODate (s : string) : t :=
  let size := String.length s in
  if (size <? 10)%nat then null
  else
    match QDate_fromString (QString.mid s 0 10) with
    | None => null
    | Some (y, mo, d) =>
        if (size =? 10)%nat then mk y mo d 0 0 0 0 LocalTime
        else
          let iso := QString.mid s 11 (size - 11) in
          let n := String.length iso in
          let isUtc := (0 <? n)%nat && isCharAt iso (n - 1) "Z" in
          let iso' := if isUtc then QString.mid iso 0 (n - 1) else iso in
          if negb isUtc && (contains "+" iso' || contains "-" iso') then null
          else
            match fromIsoTimeString iso' with
            | Some (h, mi, sec) =>
                mk y mo d h mi sec 0 (if isUtc then UTC else LocalTime)
            | None => null
            end
    end.

End QDateTime.

(** ** Types that convert themselves

    [domelement.h]: every type without a specialisation of
    [objectToString] / [stringToObject] "needs to have" a method
    [QString serializeToString() const noexcept] and a static method
    [T deserializeFromString(const QString& str)], which can throw. *)
Class SerializableObject (T : Type) : Type := {
  serializeToString : T -> string;
  deserializeFromString : string -> Result T
}.

(** ** DomElement *)
Module DomElement.

(** *** Serialization and deserialization methods

    The specialisations of the two private static templates
    [DomElement::objectToString<T>] and [DomElement::stringToObject<T>] are
    the instances of one class. *)
Class Conversion (T : Type) : Type := {
  objectToString : T -> string;
  stringToObject : string -> bool -> T -> Result T
}.

Definition objectToString_QString (obj : string) : string := obj.

Definition stringToObject_QString
  (str : string) (throwIfEmpty : bool) (defaultValue : string) : Result string :=
  Q_ASSERT (QString.eqb defaultValue "")
    (if QString.isEmpty str && throwIfEmpty
     then Throw (RuntimeError StringIsEmpty)
     else Return str).

Definition objectToString_bool (obj : bool) : string :=
  if obj then "true" else "false".

Definition stringToObject_bool
  (str : string) (throwIfEmpty : bool) (defaultValue : bool) : Result bool :=
  s ← stringToObject_QString str throwIfEmpty "";
  if QString.eqb s "true" then Return true
  else if QString.eqb s "false" then Return false
  else if QString.isEmpty s then Return defaultValue
  else Throw (RuntimeError NotAValidBoolean).

(** [int] is a 32-bit integer: a [Z] between [INT_MIN] and [INT_MAX]. *)
Definition objectToString_int (obj : Z) : string := QString.number obj.

Definition stringToObject_int
  (str : string) (throwIfEmpty : bool) (defaultValue : Z) : Result Z :=
  s ← stringToObject_QString str throwIfEmpty "";
  match QString.toInt s with
  | Some value => Return value
  | None =>
      if QString.isEmpty s then Return defaultValue
      else Throw (RuntimeError NotAValidInteger)
  end.

Definition objectToString_QDateTime (obj : QDateTime.t) : string :=
  QDateTime.toString_ISODate (QDateTime.toUTC obj).

Definition stringToObject_QDateTime
  (str : string) (throwIfEmpty : bool) (defaultValue : QDateTime.t)
  : Result QDateTime.t :=
  s ← stringToObject_QString str throwIfEmpty "";
  let obj := QDateTime.toLocalTime (QDateTime.fromString_ISODate s) in
  if QDateTime.isValid obj then Return obj
  else if QString.isEmpty s then Return defaultValue
  else Throw (RuntimeError NotAValidDatetime).

(** All other types: [serializeToString] and [deserializeFromString]. *)
Definition objectToString_generic {T} `{SerializableObject T} (obj : T) : string :=
  serializeToString obj.

Definition stringToObject_generic {T} `{SerializableObject T}
  (str : string) (throwIfEmpty : bool) (defaultValue : T) : Result T :=
  s ← stringToObject_QString str throwIfEmpty "";
  match deserializeFromString str with
  | Throw e => if QString.isEmpty str then Return defaultValue else Throw e
  | r => r
  end.

#[global] Instance Conversion_QString : Conversion string :=
  {| objectToString := objectToString_QString;
     stringToObject := stringToObject_QString |}.

#[global] Instance Conversion_bool : Conversion bool :=
  {| objectToString := objectToString_bool;
     stringToObject := stringToObject_bool |}.

#[global] Instance Conversion_int : Conversion Z :=
  {| objectToString := objectToString_int;
     stringToObject := stringToObject_int |}.

#[global] Instance Conversion_QDateTime : Conversion QDateTime.t :=
  {| objectToString := objectToString_QDateTime;
     stringToObject := stringToObject_QDateTime |}.

#[global] Instance Conversion_generic {T} `{SerializableObject T}
  : Conversion T | 100 :=
  {| objectToString := objectToString_generic;
     stringToObject := stringToObject_generic |}.

(** *** The element

    [mParent] and [mDocument] are back-references used for diagnostics and
    navigation only; an element owns its children, so a tree of elements is
    a value. *)
#[warnings="-register-all"]
Inductive t : Type := mk {
  mName : string;
  mText : string;
  mChilds : list t;
  mAttributes : gmap string string
}.

(** Modelled from the spec: the body of the constructor
    [DomElement(const QString& name, const QString& text = QString())] is in
    [domelement.cpp], which is not among the sources.  From the header: "The
    tag name of the element", "The text if a text element should be
    created"; a new element has no children and no attributes. *)
Definition new (name text : string) : t := mk name text [] ∅.

Definition getName (e : t) : string := mName e.

Definition getChilds (e : t) : list t := mChilds e.

Definition hasChilds (e : t) : bool :=
  negb (match mChilds e with [] => true | _ => false end).

Definition getChildCount (e : t) : Z := Z.of_nat (length (mChilds e)).

Definition setText {T} `{Conversion T} (e : t) (value : T) : Result t :=
  Q_ASSERT (negb (hasChilds e))
    (Return (mk (mName e) (objectToString value) (mChilds e) (mAttributes e))).

Definition getText {T} `{Conversion T}
  (e : t) (throwIfEmpty : bool) (defaultValue : T) : Result T :=
  if hasChilds e then
    Throw (FileParseError (mName e) NodeWithChildsHasNoText)
  else
    try_rethrow (stringToObject (mText e) throwIfEmpty defaultValue)
      (fun ex => FileParseError "" (TextInvalid (mText e) (mName e) (getMsg ex))).

Definition setAttribute {T} `{Conversion T} (e : t) (name : string) (value : T) : t :=
  mk (mName e) (mText e) (mChilds e)
     (<[name := objectToString value]> (mAttributes e)).

(** Modelled from the spec: the body of [hasAttribute] is in
    [domelement.cpp]; from the header: true "if the attribute exists". *)
Definition hasAttribute (e : t) (name : string) : bool :=
  bool_decide (is_Some (mAttributes e !! name)).

Definition getAttribute {T} `{Conversion T}
  (e : t) (name : string) (throwIfEmpty : bool) (defaultValue : T) : Result T :=
  match mAttributes e !! name with
  | None => Throw (FileParseError "" (AttributeNotFound name (mName e)))
  | Some value =>
      try_rethrow (stringToObject value throwIfEmpty defaultValue)
        (fun ex => FileParseError ""
                     (InvalidAttribute name value (mName e) (getMsg ex)))
  end.

(** Modelled from the spec: the body of [appendChild(DomElement* child)] is in
    [domelement.cpp], which is not among the sources.  Specification, 4.2:
    "transfers ownership to this node, appends to the ordered child list;
    fails PreconditionViolation if this node currently has text". *)
Definition appendChild (e : t) (child : t) : Result t :=
  Q_ASSERT (QString.isEmpty (mText e))
    (Return (mk (mName e) (mText e) (mChilds e ++ [child]) (mAttributes e))).

(** Modelled from the spec: [appendChild(const QString& name)], body in
    [domelement.cpp]; from the header: "Create and append the new child to
    the end of the child list of this element". *)
Definition appendChild_name (e : t) (name : string) : Result t :=
  appendChild e (new name "").

(** The source returns the new child, which is the last child of the
    element returned here. *)
Definition appendTextChild {T} `{Conversion T}
  (e : t) (name : string) (value : T) : Result t :=
  let child := new name (objectToString value) in
  appendChild e child.

(** Modelled from the spec: the body of [removeChild] is in
    [domelement.cpp]; from the header: "Remove a child element from the DOM
    tree".  The child, a pointer in the source, is given by its position in
    the child list; a position outside of the list is not a child. *)
Definition removeChild (e : t) (child : nat) (deleteChild : bool) : Result t :=
  Q_ASSERT (bool_decide (child < length (mChilds e))%nat)
    (Return (mk (mName e) (mText e) (delete child (mChilds e)) (mAttributes e))).

(** The class documentation: "Each DomElement represents either a text
    element or an element with childs"; [mText] is "only if there are no
    childs" and [mChilds] "only if there is no text".  The invariant holds
    of the element and of every element below it. *)
Fixpoint invariant (e : t) : bool :=
  match e with
  | mk _ text childs _ =>
      (match childs with [] => true | _ :: _ => QString.isEmpty text end)
      && forallb invariant childs
  end.

(** An operation keeps the invariant when it either refuses the call, which
    leaves the element as it was, or returns an element with the
    invariant; none of the operations below throws. *)
Definition keepsInvariant (r : Result t) : Prop :=
  match r with
  | Return e' => invariant e' = true
  | AssertFailed => True
  | Throw _ => False
  end.

End DomElement.

(** ** ComponentSignal

    [Uuid] and [SignalRole] are declared in headers that are not among the
    sources.  The signal uses their [operator==], their conversion to and
    from a string through [DomElement], their default constructors,
    [Uuid::isNull()] and [SignalRole::passive()]; these are the parameters
    of the section. *)
Module ComponentSignal.
Section ComponentSignal.

Context {Uuid SignalRole : Type}.
Context `{EqDecision Uuid} `{EqDecision SignalRole}.
Context `{SerializableObject Uuid} `{SerializableObject SignalRole}.
Variable isNull : Uuid -> bool.
Variable Uuid_default : Uuid.               (* Uuid() *)
Variable SignalRole_default : SignalRole.   (* SignalRole() *)
Variable passive : SignalRole.              (* SignalRole::passive() *)

Record t : Type := mk {
  mUuid : Uuid;
  mName : string;
  mRole : SignalRole;
  mForcedNetName : string;
  mIsRequired : bool;
  mIsNegated : bool;
  mIsClock : bool
}.

(** The Qt signals of the class; a member function returns the signals it
    emits, in order. *)
Inductive Signal : Type :=
| nameChanged (name : string)
| roleChanged (role : SignalRole)
| forcedNetNameChanged (name : string)
| isRequiredChanged (required : bool)
| isNegatedChanged (negated : bool)
| isClockChanged (clock : bool)
| edited.

(** What a setter emits: nothing when the argument equals the field, else
    the signal of the field followed by [edited]. *)
Definition emitted {A} `{EqDecision A} (new old : A) (changed : Signal)
  : list Signal :=
  if bool_decide (new = old) then [] else [changed; edited].

Definition checkAttributesValidity (s : t) : bool :=
  if isNull (mUuid s) then false
  else if QString.isEmpty (mName s) then false
  else true.

(** [ComponentSignal(const Uuid& uuid, const QString& name)] *)
Definition new (uuid : Uuid) (name : string) : Result t :=
  Q_ASSERT (negb (isNull uuid))
    (Return (mk uuid name passive "" false false false)).

(** [ComponentSignal(const DomElement& domElement)] *)
Definition fromDomElement (domElement : DomElement.t) : Result t :=
  uuid ← DomElement.getAttribute domElement "uuid" true Uuid_default;
  name ← DomElement.getText domElement true "";
  role ← DomElement.getAttribute domElement "role" true SignalRole_default;
  forcedNetName ← DomElement.getAttribute domElement "forced_net_name" false "";
  isRequired ← DomElement.getAttribute domElement "required" true false;
  isNegated ← DomElement.getAttribute domElement "negated" true false;
  isClock ← DomElement.getAttribute domElement "clock" true false;
  let s := mk uuid name role forcedNetName isRequired isNegated isClock in
  if negb (checkAttributesValidity s) then Throw (LogicError NoMessage)
  else Return s.

Definition setName (s : t) (name : string) : t * list Signal :=
  if bool_decide (name = mName s) then (s, [])
  else (mk (mUuid s) name (mRole s) (mForcedNetName s)
           (mIsRequired s) (mIsNegated s) (mIsClock s),
        [nameChanged name; edited]).

Definition setRole (s : t) (role : SignalRole) : t * list Signal :=
  if bool_decide (role = mRole s) then (s, [])
  else (mk (mUuid s) (mName s) role (mForcedNetName s)
           (mIsRequired s) (mIsNegated s) (mIsClock s),
        [roleChanged role; edited]).

Definition setForcedNetName (s : t) (name : string) : t * list Signal :=
  if bool_decide (name = mForcedNetName s) then (s, [])
  else (mk (mUuid s) (mName s) (mRole s) name
           (mIsRequired s) (mIsNegated s) (mIsClock s),
        [forcedNetNameChanged name; edited]).

Definition setIsRequired (s : t) (required : bool) : t * list Signal :=
  if bool_decide (required = mIsRequired s) then (s, [])
  else (mk (mUuid s) (mName s) (mRole s) (mForcedNetName s)
           required (mIsNegated s) (mIsClock s),
        [isRequiredChanged required; edited]).

Definition setIsNegated (s : t) (negated : bool) : t * list Signal :=
  if bool_decide (negated = mIsNegated s) then (s, [])
  else (mk (mUuid s) (mName s) (mRole s) (mForcedNetName s)
           (mIsRequired s) negated (mIsClock s),
        [isNegatedChanged negated; edited]).

Definition setIsClock (s : t) (clock : bool) : t * list Signal :=
  if bool_decide (clock = mIsClock s) then (s, [])
  else (mk (mUuid s) (mName s) (mRole s) (mForcedNetName s)
           (mIsRequired s) (mIsNegated s) clock,
        [isClockChanged clock; edited]).

Definition serialize (s : t) (root : DomElement.t) : Result DomElement.t :=
  if negb (checkAttributesValidity s) then Throw (LogicError NoMessage)
  else
    let root := DomElement.setAttribute root "uuid" (mUuid s) in
    let root := DomElement.setAttribute root "role" (mRole s) in
    let root := DomElement.setAttribute root "forced_net_name" (mForcedNetName s) in
    let root := DomElement.setAttribute root "required" (mIsRequired s) in
    let root := DomElement.setAttribute root "negated" (mIsNegated s) in
    let root := DomElement.setAttribute root "clock" (mIsClock s) in
    DomElement.setText root (mName s).

(** [operator==] *)
Definition eqb (lhs rhs : t) : bool :=
  if negb (bool_decide (mUuid lhs = mUuid rhs)) then false
  else if negb (bool_decide (mName lhs = mName rhs)) then false
  else if negb (bool_decide (mRole lhs = mRole rhs)) then false
  else if negb (bool_decide (mForcedNetName lhs = mForcedNetName rhs)) then false
  else if negb (bool_decide (mIsRequired lhs = mIsRequired rhs)) then false
  else if negb (bool_decide (mIsNegated lhs = mIsNegated rhs)) then false
  else if negb (bool_decide (mIsClock lhs = mIsClock rhs)) then false
  else true.

(** [ComponentSignal(const ComponentSignal& other)] *)
Definition copy (other : t) : t :=
  mk (mUuid other) (mName other) (mRole other) (mForcedNetName other)
     (mIsRequired other) (mIsNegated other) (mIsClock other).

(** [operator=]: the uuid is assigned directly (with [edited] when it
    differs), the other fields through their setters; the signals are
    returned in the order in which they are emitted. *)
Definition assign (lhs rhs : t) : t * list Signal :=
  let r0 :=
    if negb (bool_decide (mUuid lhs = mUuid rhs))
    then (mk (mUuid rhs) (mName lhs) (mRole lhs) (mForcedNetName lhs)
             (mIsRequired lhs) (mIsNegated lhs) (mIsClock lhs), [edited])
    else (lhs, []) in
  let r1 := setName (r0.1) (mName rhs) in
  let r2 := setRole (r1.1) (mRole rhs) in
  let r3 := setForcedNetName (r2.1) (mForcedNetName rhs) in
  let r4 := setIsRequired (r3.1) (mIsRequired rhs) in
  let r5 := setIsNegated (r4.1) (mIsNegated rhs) in
  let r6 := setIsClock (r5.1) (mIsClock rhs) in
  (r6.1, (r0.2 ++ r1.2 ++ r2.2 ++ r3.2 ++ r4.2 ++ r5.2 ++ r6.2)%list).

End ComponentSignal.
Arguments t Uuid SignalRole : clear implicits.
End ComponentSignal.

(** ** ProjectMetadata

    [AttributeList] is declared in [attributes/attribute.h], which is not
    among the sources; the metadata copies and compares values of it. *)
Module ProjectMetadata.
Section ProjectMetadata.

Context {AttributeList : Type} `{EqDecision AttributeList}.

(** [mProject] is a reference to the owner and [mXmlFile] a handle of the
    file at [mXmlFilepath]; the data of the object are the fields below. *)
Record t : Type := mk {
  mXmlFilepath : string;
  mName : string;
  mAuthor : string;
  mVersion : string;
  mCreated : QDateTime.t;
  mLastModified : QDateTime.t;
  mAttributes : AttributeList
}.

Definition setName (m : t) (newName : string) : t :=
  if negb (bool_decide (newName = mName m))
  then mk (mXmlFilepath m) newName (mAuthor m) (mVersion m) (mCreated m)
          (mLastModified m) (mAttributes m)
  else m.

Definition setAuthor (m : t) (newAuthor : string) : t :=
  if negb (bool_decide (newAuthor = mAuthor m))
  then mk (mXmlFilepath m) (mName m) newAuthor (mVersion m) (mCreated m)
          (mLastModified m) (mAttributes m)
  else m.

Definition setVersion (m : t) (newVersion : string) : t :=
  if negb (bool_decide (newVersion = mVersion m))
  then mk (mXmlFilepath m) (mName m) (mAuthor m) newVersion (mCreated m)
          (mLastModified m) (mAttributes m)
  else m.

(** The body of [setLastModified] is empty. *)
Definition setLastModified (m : t) (newLastModified : QDateTime.t) : t := m.

Definition setAttributes (m : t) (newAttributes : AttributeList) : t :=
  if negb (bool_decide (newAttributes = mAttributes m))
  then mk (mXmlFilepath m) (mName m) (mAuthor m) (mVersion m) (mCreated m)
          (mLastModified m) newAttributes
  else m.

Definition checkAttributesValidity (m : t) : bool :=
  if QString.isEmpty (mName m) then false else true.

(** [getAttributeValue] reads the attribute list with
    [mAttributes.contains(key)] and [mAttributes.find(key)->getValueTr(true)]
    and formats the two times with [toString(Qt::SystemLocaleShortDate)],
    which depends on the locale of the host; these are parameters. *)
Variable AttributeList_contains : AttributeList -> string -> bool.
Variable AttributeList_getValueTr : AttributeList -> string -> string.
Variable toString_SystemLocaleShortDate : QDateTime.t -> string.

(** The source returns a [bool] and assigns the reference [value]; the
    model returns the [bool] together with the content of [value] after the
    call. *)
Definition getAttributeValue (m : t) (attrNS attrKey : string)
  (passToParents : bool) (value : string) : bool * string :=
  if QString.eqb attrNS "PRJ" || QString.isEmpty attrNS then
    if QString.eqb attrKey "NAME" then (true, mName m)
    else if QString.eqb attrKey "AUTHOR" then (true, mAuthor m)
    else if QString.eqb attrKey "CREATED"
      then (true, toString_SystemLocaleShortDate (mCreated m))
    else if QString.eqb attrKey "LAST_MODIFIED"
      then (true, toString_SystemLocaleShortDate (mLastModified m))
    else if AttributeList_contains (mAttributes m) attrKey
      then (true, AttributeList_getValueTr (mAttributes m) attrKey)
    else (false, value)
  else (false, value).

(** [serialize] ends with [mAttributes.serialize(root)], which is declared
    with [AttributeList]; it is a parameter. *)
Variable AttributeList_serialize :
  AttributeList -> DomElement.t -> Result DomElement.t.

Definition serialize (m : t) (root : DomElement.t) : Result DomElement.t :=
  if negb (checkAttributesValidity m) then Throw (LogicError NoMessage)
  else
    root ← DomElement.appendTextChild root "name" (mName m);
    root ← DomElement.appendTextChild root "author" (mAuthor m);
    root ← DomElement.appendTextChild root "version" (mVersion m);
    root ← DomElement.appendTextChild root "created" (mCreated m);
    AttributeList_serialize (mAttributes m) root.

End ProjectMetadata.
Arguments t AttributeList : clear implicits.
End ProjectMetadata.

(** ** Project

    Modelled from the spec: [project.h] is not among the sources.  The
    project owns its [ProjectMetadata] (specification, 1: "project
    metadata"), and the command below names the project's accessors
    [getName], [getAuthor], [getVersion], [getAttributes] and the matching
    setters. *)
Module Project.
Section Project.

Context {AttributeList : Type} `{EqDecision AttributeList}.

Record t : Type := mk {
  mMetadata : ProjectMetadata.t AttributeList
}.

Definition getName (p : t) : string := ProjectMetadata.mName (mMetadata p).
Definition getAuthor (p : t) : string := ProjectMetadata.mAuthor (mMetadata p).
Definition getVersion (p : t) : string := ProjectMetadata.mVersion (mMetadata p).
Definition getAttributes (p : t) : AttributeList :=
  ProjectMetadata.mAttributes (mMetadata p).

Definition setName (p : t) (newName : string) : t :=
  mk (ProjectMetadata.setName (mMetadata p) newName).
Definition setAuthor (p : t) (newAuthor : string) : t :=
  mk (ProjectMetadata.setAuthor (mMetadata p) newAuthor).
Definition setVersion (p : t) (newVersion : string) : t :=
  mk (ProjectMetadata.setVersion (mMetadata p) newVersion).
Definition setAttributes (p : t) (newAttributes : AttributeList) : t :=
  mk (ProjectMetadata.setAttributes (mMetadata p) newAttributes).

End Project.
Arguments t AttributeList : clear implicits.
End Project.

(** ** CmdProjectSetMetadata *)
Module CmdProjectSetMetadata.
Section CmdProjectSetMetadata.

Context {AttributeList : Type} `{EqDecision AttributeList}.
Variable AttributeList_default : AttributeList.   (* AttributeList() *)

(** The command holds a reference to the project; the member functions
    below take the project and return it next to the command.  The first
    two fields are the state of the base class [UndoCommand]. *)
Record t : Type := mk {
  mIsExecuted : bool;      (* execute() was called successfully *)
  mIsUndone : bool;        (* the last call was undo() *)
  mOldName : string;
  mNewName : string;
  mOldAuthor : string;
  mNewAuthor : string;
  mOldVersion : string;
  mNewVersion : string;
  mOldAttributes : AttributeList;
  mNewAttributes : AttributeList
}.

Definition wasEverExecuted (c : t) : bool := mIsExecuted c.
Definition isCurrentlyExecuted (c : t) : bool := mIsExecuted c && negb (mIsUndone c).

(** The constructor initialises the base class and [mProject] only (the
    initialisers of the other members are commented out in the source):
    the strings and the attribute lists are default-constructed. *)
Definition new (project : Project.t AttributeList) : t :=
  mk false false "" "" "" "" "" ""
     AttributeList_default AttributeList_default.

Definition setName (c : t) (newName : string) : Result t :=
  Q_ASSERT (negb (wasEverExecuted c))
    (Return (mk (mIsExecuted c) (mIsUndone c)
                (mOldName c) newName (mOldAuthor c) (mNewAuthor c)
                (mOldVersion c) (mNewVersion c)
                (mOldAttributes c) (mNewAttributes c))).

Definition setAuthor (c : t) (newAuthor : string) : Result t :=
  Q_ASSERT (negb (wasEverExecuted c))
    (Return (mk (mIsExecuted c) (mIsUndone c)
                (mOldName c) (mNewName c) (mOldAuthor c) newAuthor
                (mOldVersion c) (mNewVersion c)
                (mOldAttributes c) (mNewAttributes c))).

Definition setVersion (c : t) (newVersion : string) : Result t :=
  Q_ASSERT (negb (wasEverExecuted c))
    (Return (mk (mIsExecuted c) (mIsUndone c)
                (mOldName c) (mNewName c) (mOldAuthor c) (mNewAuthor c)
                (mOldVersion c) newVersion
                (mOldAttributes c) (mNewAttributes c))).

Definition setAttributes (c : t) (attributes : AttributeList) : Result t :=
  Q_ASSERT (negb (wasEverExecuted c))
    (Return (mk (mIsExecuted c) (mIsUndone c)
                (mOldName c) (mNewName c) (mOldAuthor c) (mNewAuthor c)
                (mOldVersion c) (mNewVersion c)
                (mOldAttributes c) attributes)).

(** The statements of [performUndo] and [performRedo] are commented out in
    the source: both bodies are empty. *)
Definition performUndo (c : t) (project : Project.t AttributeList)
  : Result (t * Project.t AttributeList) :=
  Return (c, project).

Definition performRedo (c : t) (project : Project.t AttributeList)
  : Result (t * Project.t AttributeList) :=
  Return (c, project).

Definition performExecute (c : t) (project : Project.t AttributeList)
  : Result (bool * (t * Project.t AttributeList)) :=
  st ← performRedo c project;
  let c' := st.1 in
  if negb (bool_decide (mNewName c' = mOldName c')) then Return (true, st)
  else if negb (bool_decide (mNewAuthor c' = mOldAuthor c')) then Return (true, st)
  else if negb (bool_decide (mNewVersion c' = mOldVersion c')) then Return (true, st)
  else if negb (bool_decide (mNewAttributes c' = mOldAttributes c')) then Return (true, st)
  else Return (false, st).

Definition setFlags (c : t) (executed undone : bool) : t :=
  mk executed undone
     (mOldName c) (mNewName c) (mOldAuthor c) (mNewAuthor c)
     (mOldVersion c) (mNewVersion c) (mOldAttributes c) (mNewAttributes c).

(** Modelled from the spec: [undocommand.h] is not among the sources.
    Specification, 4.4, state machine Idle, Executed, Undone: "execute() ->
    changed: [...] performs the mutation, returns whether the end state
    differs [...]; a failed underlying mutation propagates its error and
    the command is NOT marked executed". *)
Definition execute (c : t) (project : Project.t AttributeList)
  : Result (bool * (t * Project.t AttributeList)) :=
  if wasEverExecuted c then PreconditionViolation
  else
    r ← performExecute c project;
    Return (r.1, (setFlags r.2.1 true false, r.2.2)).

(** Modelled from the spec: specification, 4.4: "undo(): fails
    PreconditionViolation unless currently Executed; restores exactly the
    captured prior values; transitions to Undone". *)
Definition undo (c : t) (project : Project.t AttributeList)
  : Result (t * Project.t AttributeList) :=
  if negb (isCurrentlyExecuted c) then PreconditionViolation
  else
    r ← performUndo c project;
    Return (setFlags r.1 true true, r.2).

(** Modelled from the spec: specification, 4.4: "redo(): fails
    PreconditionViolation unless currently Undone". *)
Definition redo (c : t) (project : Project.t AttributeList)
  : Result (t * Project.t AttributeList) :=
  if negb (mIsExecuted c && mIsUndone c) then PreconditionViolation
  else
    r ← performRedo c project;
    Return (setFlags r.1 true false, r.2).

End CmdProjectSetMetadata.
Arguments t AttributeList : clear implicits.
End CmdProjectSetMetadata.

(** ** A concrete choice of the missing types

    Used to run the model on examples: a [Uuid] is its text (null when
    empty), a signal role is one of two names, an attribute list is a list
    of keys and values. *)
Module Sample.

Definition Uuid : Type := string.
Definition isNull (u : Uuid) : bool := QString.isEmpty u.

#[global] Instance Uuid_serializable : SerializableObject Uuid :=
  {| serializeToString := fun u => u;
     deserializeFromString := fun str =>
       if QString.isEmpty str then Throw (RuntimeError DeserializeFailed)
       else Return str |}.

Inductive SignalRole : Type := passive | power.

#[global] Instance SignalRole_eq_dec : EqDecision SignalRole.
Proof. solve_decision. Defined.

#[global] Instance SignalRole_serializable : SerializableObject SignalRole :=
  {| serializeToString := fun r =>
       match r with passive => "passive" | power => "power" end;
     deserializeFromString := fun str =>
       if QString.eqb str "passive" then Return passive
       else if QString.eqb str "power" then Return power
       else Throw (RuntimeError DeserializeFailed) |}.

Definition AttributeList : Type := list (string * string).

Definition metadata (name author version : string) (attributes : AttributeList)
  : ProjectMetadata.t AttributeList :=
  ProjectMetadata.mk "core/project.xml" name author version
    (QDateTime.mk 2015 2 1 12 0 0 0 QDateTime.LocalTime)
    (QDateTime.mk 2016 7 4 9 30 15 250 QDateTime.LocalTime)
    attributes.

Definition project : Project.t AttributeList :=
  Project.mk (metadata "old name" "author" "v1" []).

(** [signal] as [ComponentSignal.serialize] writes it. *)
Definition element : DomElement.t :=
  DomElement.mk "signal" "VCC" []
    (<["clock" := "false"]> (<["negated" := "false"]> (<["required" := "true"]>
     (<["forced_net_name" := "VCC"]> (<["role" := "power"]>
     (<["uuid" := "6da06b2b-7806-4e68-bd0c-e9f18eb2f9d8"]> ∅)))))).

Definition contains (l : AttributeList) (key : string) : bool :=
  bool_decide (key ∈ l.*1).

Definition getValueTr (l : AttributeList) (key : string) : string :=
  default "" (list_to_map (M := gmap string string) l !! key).

Definition signal : ComponentSignal.t Uuid SignalRole :=
  ComponentSignal.mk "6da06b2b-7806-4e68-bd0c-e9f18eb2f9d8" "VCC" power "VCC"
    true false false.

End Sample.

(** ** The value codec of the specification

    Specification, 4.1: "decode(text, required, default) -> value: if text
    is empty and required is false, returns default; if empty and required
    is true, fails with EmptyValue; otherwise attempts parse, failing with
    InvalidFormat(type, raw text) on mismatch".  [decode] follows these
    words; it is compared with [DomElement.stringToObject] below. *)
Module ValueCodec.

Definition decode {T} (parse : string -> option T) (invalidFormat : Message)
  (text : string) (required : bool) (default : T) : Result T :=
  if QString.isEmpty text then
    if required then Throw (RuntimeError StringIsEmpty) else Return default
  else
    match parse text with
    | Some value => Return value
    | None => Throw (RuntimeError invalidFormat)
    end.

(** Specification, 4.2: the document node "wraps decode failures" with the
    name of the node or of the attribute; [context] is that wrapping, and
    it is given the raw text. *)
Definition decodeWithContext {T} (parse : string -> option T)
  (invalidFormat : Message) (context : Message -> Message)
  (text : string) (required : bool) (default : T) : Result T :=
  if QString.isEmpty text then
    if required then Throw (FileParseError "" (context StringIsEmpty))
    else Return default
  else
    match parse text with
    | Some value => Return value
    | None => Throw (FileParseError "" (context invalidFormat))
    end.

(** The strings that the text of an exception is built from, and so the
    strings that the exception carries. *)
Fixpoint mentions (m : Message) (text : string) : bool :=
  match m with
  | TextInvalid t node inner =>
      QString.eqb t text || QString.eqb node text || mentions inner text
  | AttributeNotFound name node =>
      QString.eqb name text || QString.eqb node text
  | InvalidAttribute name value node inner =>
      QString.eqb name text || QString.eqb value text
      || QString.eqb node text || mentions inner text
  | _ => false
  end.

Definition carries (e : Exception) (text : string) : bool :=
  match e with
  | RuntimeError m | LogicError m => mentions m text
  | FileParseError content m => QString.eqb content text || mentions m text
  end.

(** The texts that parse as a boolean. *)
Definition parseBool (text : string) : option bool :=
  if QString.eqb text "true" then Some true
  else if QString.eqb text "false" then Some false
  else None.

End ValueCodec.

(** * Properties *)

(** ** Decimal numerals *)
Section Numerals.

Import QString.

Example number_examples :
  number 0 = "0" /\ number (-5) = "-5" /\ number 1000000 = "1000000"
  /\ number INT_MIN = "-2147483648" /\ number INT_MAX = "2147483647".
Proof. repeat split. Qed.

Example toInt_examples :
  toInt "1000000" = Some 1000000 /\ toInt " -5 " = Some (-5)
  /\ toInt "+7" = Some 7 /\ toInt "007" = Some 7
  /\ toInt "" = None /\ toInt "-" = None /\ toInt "12a" = None
  /\ toInt "2147483648" = None /\ toInt "-2147483648" = Some INT_MIN.
Proof. repeat split. Qed.

Lemma code_digitChar d : 0 <= d <= 9 -> code (digitChar d) = 48 + d.
Proof.
  intros Hd. unfold code, digitChar.
  rewrite N_ascii_embedding; [lia|].
  assert (Z.to_N (48 + d) <= Z.to_N 57)%N by (apply Z2N.inj_le; lia).
  change (Z.to_N 57) with 57%N in *. lia.
Qed.

Lemma isDigit_digitChar d : 0 <= d <= 9 -> isDigit (digitChar d) = true.
Proof.
  intros Hd. unfold isDigit. rewrite code_digitChar by done.
  apply andb_true_intro. split; apply Z.leb_le; lia.
Qed.

Lemma isDigit_not_space c : isDigit c = true -> isSpace c = false.
Proof.
  unfold isDigit, isSpace. intros [H1 H2]%andb_prop.
  apply Z.leb_le in H1, H2.
  repeat (apply orb_false_intro);
    first [ apply Z.eqb_neq; lia
          | apply andb_false_intro2, Z.leb_gt; lia ].
Qed.

Lemma all_rev_append p s acc :
  all p s = true -> all p acc = true -> all p (rev_append s acc) = true.
Proof.
  revert acc. induction s as [|c s IH]; intros acc Hs Hacc; simpl in *; [done|].
  apply andb_prop in Hs as [Hc Hs]. apply IH; [done|]. simpl. by rewrite Hc.
Qed.

Lemma rev_append_rev_append s acc :
  rev_append (rev_append s acc) "" = rev_append acc s.
Proof.
  revert acc. induction s as [|c s IH]; intros acc; simpl; [done|].
  by rewrite IH.
Qed.

Lemma rev_rev s : rev (rev s) = s.
Proof. unfold rev. by rewrite rev_append_rev_append. Qed.

Lemma dropWhile_none p s :
  all (fun c => negb (p c)) s = true -> dropWhile p s = s.
Proof.
  destruct s as [|c s]; simpl; [done|].
  intros [Hc _]%andb_prop. by destruct (p c).
Qed.

Lemma trimmed_no_space s :
  all (fun c => negb (isSpace c)) s = true -> trimmed s = s.
Proof.
  intros Hs. unfold trimmed. rewrite (dropWhile_none _ s) by done.
  rewrite dropWhile_none; [apply rev_rev|].
  by apply all_rev_append.
Qed.

Lemma all_impl (p q : ascii -> bool) s :
  (forall c, p c = true -> q c = true) -> all p s = true -> all q s = true.
Proof.
  intros Hpq. induction s as [|c s IH]; simpl; [done|].
  intros [Hc Hs]%andb_prop. by rewrite (Hpq c Hc), IH.
Qed.

Lemma all_digits_no_space s :
  all isDigit s = true -> all (fun c => negb (isSpace c)) s = true.
Proof.
  apply all_impl. intros c Hc. by rewrite isDigit_not_space.
Qed.

Lemma all_digits_digits fuel n acc :
  0 <= n -> all isDigit acc = true -> all isDigit (digits fuel n acc) = true.
Proof.
  revert n acc. induction fuel as [|f IH]; intros n acc Hn Hacc; simpl; [done|].
  assert (Hd : all isDigit (String (digitChar (n mod 10)) acc) = true).
  { simpl. rewrite isDigit_digitChar, Hacc; [done|].
    pose proof (Z.mod_pos_bound n 10). lia. }
  destruct (n <? 10); [done|].
  apply IH; [|done]. apply Z.div_pos; lia.
Qed.

Lemma digits_not_empty fuel n acc :
  (0 < fuel)%nat -> digits fuel n acc <> "".
Proof.
  revert n acc. induction fuel as [|f IH]; intros n acc Hf; [lia|].
  simpl. destruct (n <? 10); [done|].
  destruct f as [|f]; [done|]. apply IH. lia.
Qed.

Lemma parseDigits_digits fuel n acc :
  0 <= n < 10 ^ Z.of_nat fuel ->
  exists k, 0 <= k /\ forall a,
    parseDigits (digits fuel n acc) a = parseDigits acc (a * 10 ^ k + n).
Proof.
  revert n acc. induction fuel as [|f IH]; intros n acc Hn.
  { change (10 ^ Z.of_nat 0) with 1 in Hn. exists 0. split; [lia|].
    intros a. simpl. f_equal. lia. }
  simpl. destruct (Z.ltb_spec n 10) as [Hlt|Hge].
  - exists 1. split; [lia|]. intros a. simpl.
    rewrite Z.mod_small by lia.
    rewrite isDigit_digitChar, code_digitChar by lia.
    f_equal. lia.
  - destruct (IH (n / 10) (String (digitChar (n mod 10)) acc)) as (k & Hk & IHk).
    { split; [apply Z.div_pos; lia|].
      apply Z.div_lt_upper_bound; [lia|].
      rewrite Nat2Z.inj_succ, Z.pow_succ_r in Hn by lia. lia. }
    exists (k + 1). split; [lia|]. intros a. rewrite IHk. simpl.
    pose proof (Z.mod_pos_bound n 10 ltac:(lia)).
    rewrite isDigit_digitChar, code_digitChar by lia.
    f_equal. rewrite Z.pow_add_r, Z.pow_1_r by lia.
    pose proof (Z.div_mod n 10 ltac:(lia)). lia.
Qed.

Lemma parseDigits_digits_0 fuel n :
  0 <= n < 10 ^ Z.of_nat fuel -> parseDigits (digits fuel n "") 0 = Some n.
Proof.
  intros Hn. destruct (parseDigits_digits fuel n "" Hn) as (k & _ & Hk).
  rewrite Hk. simpl. f_equal.
Qed.

Lemma length_digits_le fuel n acc k :
  (1 <= k)%nat -> 0 <= n < 10 ^ Z.of_nat k ->
  (String.length (digits fuel n acc) <= k + String.length acc)%nat.
Proof.
  revert n acc k. induction fuel as [|f IH]; intros n acc k Hk Hn; simpl; [lia|].
  destruct (Z.ltb_spec n 10) as [Hlt|Hge]; simpl; [lia|].
  destruct k as [|k]; [lia|].
  destruct k as [|k]; [change (10 ^ Z.of_nat 1) with 10 in Hn; lia|].
  etrans.
  - apply (IH (n / 10) _ (S k)); [lia|].
    split; [apply Z.div_pos; lia|].
    apply Z.div_lt_upper_bound; [lia|].
    rewrite (Nat2Z.inj_succ (S k)), Z.pow_succ_r in Hn by lia. lia.
  - simpl. lia.
Qed.

#[local] Arguments digits : simpl never.

Lemma not_sign_of_digit c :
  isDigit c = true -> c <> "-"%char /\ c <> "+"%char.
Proof. intros Hc. split; intros ->; discriminate Hc. Qed.

(** On a non-empty string of digits [toInt] is the value of the numeral,
    if it fits an [int]. *)
Lemma toInt_all_digits s :
  all isDigit s = true -> s <> "" ->
  toInt s = match parseDigits s 0 with
            | Some n => if isIntb n then Some n else None
            | None => None
            end.
Proof.
  intros Hs Hne. unfold toInt.
  rewrite trimmed_no_space by (by apply all_digits_no_space).
  destruct s as [|c s]; [done|].
  simpl in Hs. apply andb_prop in Hs as [Hc _].
  apply not_sign_of_digit in Hc as [Hm Hp].
  assert (Hsel :
    match String c s with
    | String "-" r => option_map Z.opp (parseUnsigned r)
    | String "+" r => parseUnsigned r
    | _ => parseUnsigned (String c s)
    end = parseUnsigned (String c s)).
  { destruct c as [[] [] [] [] [] [] [] []]; congruence. }
  rewrite Hsel. reflexivity.
Qed.

Lemma isIntb_true n : isInt n -> isIntb n = true.
Proof.
  unfold isInt, isIntb. intros [H1 H2].
  apply andb_true_intro. split; by apply Z.leb_le.
Qed.

Lemma toInt_digits fuel n :
  (0 < fuel)%nat -> 0 <= n < 10 ^ Z.of_nat fuel -> n <= INT_MAX ->
  toInt (digits fuel n "") = Some n.
Proof.
  intros Hf Hn Hmax.
  rewrite toInt_all_digits.
  - rewrite parseDigits_digits_0 by done.
    rewrite isIntb_true; [done|]. unfold isInt, INT_MIN, INT_MAX in *. lia.
  - apply all_digits_digits; [lia|done].
  - by apply digits_not_empty.
Qed.

(** [QString::toInt] reads back what [QString::number] writes. *)
Lemma toInt_number n : isInt n -> toInt (number n) = Some n.
Proof.
  intros Hn. pose proof Hn as [Hlo Hhi]. unfold INT_MIN, INT_MAX in *.
  unfold number. destruct (Z.ltb_spec n 0) as [Hneg|Hpos].
  - unfold toInt. rewrite trimmed_no_space.
    + unfold parseUnsigned.
      pose proof (digits_not_empty 10 (- n) "" ltac:(lia)) as Hne.
      destruct (digits 10 (- n) "") as [|c r] eqn:Hd; [done|].
      rewrite <- Hd, parseDigits_digits_0
        by (change (10 ^ Z.of_nat 10) with 10000000000; lia).
      simpl. rewrite Z.opp_involutive, isIntb_true; done.
    + change (all (fun c => negb (isSpace c)) (digits 10 (- n) "") = true).
      apply all_digits_no_space, all_digits_digits; [lia|done].
  - apply toInt_digits;
      [lia| change (10 ^ Z.of_nat 10) with 10000000000; lia | unfold INT_MAX; lia].
Qed.

Lemma parseDigits_zeros k s : parseDigits (zeros k s) 0 = parseDigits s 0.
Proof. induction k as [|k IH]; simpl; done. Qed.

Lemma all_digits_zeros k s :
  all isDigit s = true -> all isDigit (zeros k s) = true.
Proof. intros Hs. induction k as [|k IH]; simpl; done. Qed.

Lemma zeros_not_empty k s : s <> "" -> zeros k s <> "".
Proof. destruct k; simpl; done. Qed.

Lemma length_zeros k s : String.length (zeros k s) = (k + String.length s)%nat.
Proof. induction k as [|k IH]; simpl; [done|]. by rewrite IH. Qed.

(** A zero-padded number of at most [w] digits has exactly [w] characters
    and reads back as the number. *)
Lemma length_padded w n :
  (1 <= w)%nat -> 0 <= n < 10 ^ Z.of_nat w -> String.length (padded w n) = w.
Proof.
  intros Hw Hn. unfold padded. rewrite length_zeros.
  pose proof (length_digits_le 19 n "" w Hw Hn). simpl in *. lia.
Qed.

Lemma toInt_padded w n : 0 <= n <= INT_MAX -> toInt (padded w n) = Some n.
Proof.
  intros Hn. unfold INT_MAX in Hn. unfold padded.
  rewrite toInt_all_digits.
  - rewrite parseDigits_zeros, parseDigits_digits_0
      by (change (10 ^ Z.of_nat 19) with 10000000000000000000; lia).
    rewrite isIntb_true; [done|]. unfold isInt, INT_MIN, INT_MAX. lia.
  - apply all_digits_zeros, all_digits_digits; [lia|done].
  - apply zeros_not_empty, digits_not_empty. lia.
Qed.

End Numerals.

(** ** The ISO 8601 text of a date-time *)
Section DateTimeText.

Import QString QDateTime.

Example toString_ISODate_examples :
  toString_ISODate (mk 2015 2 1 12 30 59 500 UTC) = "2015-02-01T12:30:59Z"
  /\ toString_ISODate (mk 987 12 31 0 0 0 0 LocalTime) = "0987-12-31T00:00:00"
  /\ toString_ISODate (mk 10000 1 1 0 0 0 0 UTC) = ""
  /\ toString_ISODate (mk 2015 2 29 0 0 0 0 UTC) = "".
Proof. repeat split. Qed.

Example fromString_ISODate_examples :
  fromString_ISODate "2016-02-29T23:59:58Z" = mk 2016 2 29 23 59 58 0 UTC
  /\ fromString_ISODate "2016-02-29T23:59" = mk 2016 2 29 23 59 0 0 LocalTime
  /\ fromString_ISODate "2015-02-29T23:59:58Z" = null
  /\ fromString_ISODate "2015-02-01 12:30" = mk 2015 2 1 12 30 0 0 LocalTime
  /\ fromString_ISODate "yesterday" = null.
Proof. repeat split. Qed.

Lemma string_length_2 s : String.length s = 2%nat -> exists a b, s = String a (String b "").
Proof. destruct s as [|a [|b [|c s]]]; try discriminate. eauto. Qed.
Lemma string_length_4 s : String.length s = 4%nat ->
  exists a b c d, s = String a (String b (String c (String d ""))).
Proof. destruct s as [|a [|b [|c [|d [|e s]]]]]; try discriminate. eauto 6. Qed.

#[local] Arguments toInt : simpl never.
#[local] Arguments padded : simpl never.

(** Boolean tests of the validity checks, read as propositions. *)
Ltac bool_to_Prop H :=
  repeat first
    [ rewrite andb_true_iff in H | rewrite orb_true_iff in H
    | rewrite negb_true_iff in H
    | rewrite Z.eqb_eq in H | rewrite Z.eqb_neq in H
    | rewrite Z.ltb_lt in H | rewrite Z.leb_le in H ].

Lemma monthDays_le m : monthDays m <= 31.
Proof. unfold monthDays. repeat case_match; lia. Qed.

Lemma QDate_isValid_bounds y m d : QDate_isValid y m d = true ->
  y <> 0 /\ 1 <= m <= 12 /\ 1 <= d <= 31.
Proof.
  unfold QDate_isValid. intros H. bool_to_Prop H.
  pose proof (monthDays_le m). lia.
Qed.

Lemma QTime_isValid_bounds h m s ms : QTime_isValid h m s ms = true ->
  0 <= h < 24 /\ 0 <= m < 60 /\ 0 <= s < 60 /\ 0 <= ms < 1000.
Proof. unfold QTime_isValid. intros H. bool_to_Prop H. lia. Qed.

Lemma QDate_fromString_padded y m d :
  QDate_isValid y m d = true -> 0 <= y <= 9999 ->
  QDate_fromString
    (padded 4 y +:+ "-" +:+ padded 2 m +:+ "-" +:+ padded 2 d) = Some (y, m, d).
Proof.
  intros Hv Hy. pose proof (QDate_isValid_bounds _ _ _ Hv) as (Hy0 & Hm & Hd).
  pose proof (toInt_padded 4 y ltac:(unfold INT_MAX; lia)) as HY.
  pose proof (toInt_padded 2 m ltac:(unfold INT_MAX; lia)) as HM.
  pose proof (toInt_padded 2 d ltac:(unfold INT_MAX; lia)) as HD.
  destruct (string_length_4 (padded 4 y)) as (y1 & y2 & y3 & y4 & EY).
  { apply length_padded; [lia|]. change (10 ^ Z.of_nat 4) with 10000. lia. }
  destruct (string_length_2 (padded 2 m)) as (m1 & m2 & EM).
  { apply length_padded; [lia|]. change (10 ^ Z.of_nat 2) with 100. lia. }
  destruct (string_length_2 (padded 2 d)) as (d1 & d2 & ED).
  { apply length_padded; [lia|]. change (10 ^ Z.of_nat 2) with 100. lia. }
  rewrite EY, EM, ED in *.
  unfold QDate_fromString, toIntOr0, isDigitAt. simpl.
  rewrite HY, HM, HD. simpl.
  rewrite Hv.
  destruct (Z.leb_spec y 0), (Z.ltb_spec 9999 y); try lia. done.
Qed.

Lemma fromIsoTimeString_padded h m s :
  QTime_isValid h m s 0 = true ->
  fromIsoTimeString (padded 2 h +:+ ":" +:+ padded 2 m +:+ ":" +:+ padded 2 s)
  = Some (h, m, s).
Proof.
  intros Hv. pose proof (QTime_isValid_bounds _ _ _ _ Hv) as (Hh & Hm & Hs & _).
  pose proof (toInt_padded 2 h ltac:(unfold INT_MAX; lia)) as HH.
  pose proof (toInt_padded 2 m ltac:(unfold INT_MAX; lia)) as HM.
  pose proof (toInt_padded 2 s ltac:(unfold INT_MAX; lia)) as HS.
  destruct (string_length_2 (padded 2 h)) as (h1 & h2 & EH).
  { apply length_padded; [lia|]. change (10 ^ Z.of_nat 2) with 100. lia. }
  destruct (string_length_2 (padded 2 m)) as (m1 & m2 & EM).
  { apply length_padded; [lia|]. change (10 ^ Z.of_nat 2) with 100. lia. }
  destruct (string_length_2 (padded 2 s)) as (s1 & s2 & ES).
  { apply length_padded; [lia|]. change (10 ^ Z.of_nat 2) with 100. lia. }
  rewrite EH, EM, ES in *.
  unfold fromIsoTimeString, isCharAt. simpl.
  rewrite HH, HM, HS. simpl. rewrite Hv.
  done.
Qed.

Lemma isValid_fields d : isValid d = true ->
  QDate_isValid (year d) (month d) (day d) = true /\
  QTime_isValid (hour d) (minute d) (second d) 0 = true.
Proof.
  unfold isValid. intros [Hd Ht]%andb_prop. split; [done|].
  pose proof (QTime_isValid_bounds _ _ _ _ Ht).
  unfold QTime_isValid in *. bool_to_Prop Ht.
  repeat (apply andb_true_intro; split); first [apply Z.leb_le | apply Z.ltb_lt]; lia.
Qed.

Lemma fromString_toString_ISODate d :
  isValid d = true -> 0 <= year d <= 9999 ->
  fromString_ISODate (toString_ISODate (toUTC d))
  = mk (year d) (month d) (day d) (hour d) (minute d) (second d) 0 UTC.
Proof.
  intros Hv Hy. destruct d as [y mo d h mi s ms spec]. simpl in *.
  pose proof (isValid_fields _ Hv) as [Hdate Htime]. simpl in *.
  pose proof (QDate_fromString_padded _ _ _ Hdate Hy) as HD.
  pose proof (fromIsoTimeString_padded _ _ _ Htime) as HT.
  pose proof (QDate_isValid_bounds _ _ _ Hdate) as (Hy0 & Hm & Hd).
  pose proof (QTime_isValid_bounds _ _ _ _ Htime) as (Hh & Hmi & Hs & _).
  unfold toString_ISODate, toUTC. simpl.
  change (isValid (mk y mo d h mi s ms UTC)) with (isValid (mk y mo d h mi s ms spec)).
  rewrite Hv. simpl.
  destruct (Z.leb_spec 0 y), (Z.leb_spec y 9999); try lia. simpl.
  destruct (string_length_4 (padded 4 y)) as (y1 & y2 & y3 & y4 & EY).
  { apply length_padded; [lia|]. change (10 ^ Z.of_nat 4) with 10000. lia. }
  destruct (string_length_2 (padded 2 mo)) as (o1 & o2 & EO).
  { apply length_padded; [lia|]. change (10 ^ Z.of_nat 2) with 100. lia. }
  destruct (string_length_2 (padded 2 d)) as (d1 & d2 & ED).
  { apply length_padded; [lia|]. change (10 ^ Z.of_nat 2) with 100. lia. }
  destruct (string_length_2 (padded 2 h)) as (h1 & h2 & EH).
  { apply length_padded; [lia|]. change (10 ^ Z.of_nat 2) with 100. lia. }
  destruct (string_length_2 (padded 2 mi)) as (m1 & m2 & EM).
  { apply length_padded; [lia|]. change (10 ^ Z.of_nat 2) with 100. lia. }
  destruct (string_length_2 (padded 2 s)) as (s1 & s2 & ES).
  { apply length_padded; [lia|]. change (10 ^ Z.of_nat 2) with 100. lia. }
  rewrite EY, EO, ED, EH, EM, ES in *.
  unfold fromString_ISODate, isCharAt.
  cbv [String.append mid at_ String.substring String.length String.get
       Nat.ltb Nat.leb Nat.eqb Nat.sub negb andb orb] in *.
  rewrite HD.
  rewrite (bool_decide_eq_true_2 ("Z"%char = "Z"%char)) by done.
  by rewrite HT.
Qed.

End DateTimeText.

(** ** DomElement: decoding, attributes, preconditions *)
Section DomElementProperties.

Import DomElement.

Lemma stringToObject_QString_default str throwIfEmpty :
  stringToObject_QString str throwIfEmpty "" =
  if QString.isEmpty str && throwIfEmpty then Throw (RuntimeError StringIsEmpty)
  else Return str.
Proof. reflexivity. Qed.

Lemma eqb_empty_false s : QString.isEmpty s = true -> forall t, t <> "" -> QString.eqb s t = false.
Proof.
  destruct s; [|done]. intros _ t Ht. unfold QString.eqb.
  apply bool_decide_eq_false. congruence.
Qed.

Lemma stringToObject_bool_decode text required default :
  stringToObject_bool text required default
  = ValueCodec.decode ValueCodec.parseBool NotAValidBoolean text required default.
Proof.
  unfold stringToObject_bool, ValueCodec.decode, ValueCodec.parseBool.
  rewrite stringToObject_QString_default.
  destruct text as [|c text]; simpl.
  - by destruct required.
  - by repeat case_match.
Qed.

Lemma toInt_empty : QString.toInt "" = None.
Proof. reflexivity. Qed.

Lemma stringToObject_int_decode text required default :
  stringToObject_int text required default
  = ValueCodec.decode QString.toInt NotAValidInteger text required default.
Proof.
  unfold stringToObject_int, ValueCodec.decode.
  rewrite stringToObject_QString_default.
  destruct text as [|c text].
  - by destruct required.
  - change (QString.isEmpty (String c text)) with false. simpl.
    by destruct (QString.toInt (String c text)).
Qed.

Lemma getText_decode {T} `{Conversion T} parse invalidFormat
  name text attributes required (default : T) :
  (forall text required default,
     stringToObject text required default
     = ValueCodec.decode parse invalidFormat text required default) ->
  getText (mk name text [] attributes) required default
  = ValueCodec.decodeWithContext parse invalidFormat (TextInvalid text name)
      text required default.
Proof.
  intros Hdec. unfold getText. simpl. rewrite Hdec.
  unfold ValueCodec.decode, ValueCodec.decodeWithContext.
  destruct (QString.isEmpty text); [by destruct required|].
  by destruct (parse text).
Qed.

Lemma getAttribute_decode {T} `{Conversion T} parse invalidFormat
  e name text required (default : T) :
  (forall text required default,
     stringToObject text required default
     = ValueCodec.decode parse invalidFormat text required default) ->
  getAttribute (setAttribute e name text) name required default
  = ValueCodec.decodeWithContext parse invalidFormat
      (InvalidAttribute name text (mName e)) text required default.
Proof.
  intros Hdec. unfold getAttribute, setAttribute. simpl.
  rewrite lookup_insert_eq. rewrite Hdec.
  unfold ValueCodec.decode, ValueCodec.decodeWithContext, objectToString_QString.
  destruct (QString.isEmpty text); [by destruct required|].
  by destruct (parse text).
Qed.

Lemma stringToObject_QString_decode text required default :
  stringToObject_QString text required default
  = if QString.eqb default ""
    then ValueCodec.decode (fun t => Some t) NoMessage text required default
    else AssertFailed.
Proof.
  unfold stringToObject_QString, Q_ASSERT, ValueCodec.decode, QString.eqb.
  case_bool_decide as Hd; [|done]. subst default.
  destruct text; [by destruct required|done].
Qed.

Lemma eqb_refl text : QString.eqb text text = true.
Proof. unfold QString.eqb. by apply bool_decide_eq_true_2. Qed.

(** C5 (amended).  Decoding a text as a [bool] or as an [int] is the
    [decode] of the specification: an empty text gives the default when it
    is not required and fails ("String is empty") when it is required; a
    text that is not empty gives the parsed value, or fails with a
    [RuntimeError] "not a valid boolean" / "not a valid integer" when it
    does not parse.  That error names the type and does not carry the raw
    text.  The raw text is added by [getText] and [getAttribute], which
    rethrow every failure of the decoding as a [FileParseError] with the
    raw text and the name of the node or of the attribute.  For a
    [QString] the decoding returns the text itself, and asserts that the
    default is the empty string. *)
Theorem stringToObject_follows_decode :
  (forall text required default,
     stringToObject (T:=bool) text required default
     = ValueCodec.decode ValueCodec.parseBool NotAValidBoolean
         text required default)
  /\ (forall text required default,
     stringToObject (T:=Z) text required default
     = ValueCodec.decode QString.toInt NotAValidInteger text required default)
  /\ (forall text,
     ValueCodec.carries (RuntimeError StringIsEmpty) text = false
     /\ ValueCodec.carries (RuntimeError NotAValidBoolean) text = false
     /\ ValueCodec.carries (RuntimeError NotAValidInteger) text = false)
  /\ (forall name text attributes required (default : bool),
     getText (mk name text [] attributes) required default
     = ValueCodec.decodeWithContext ValueCodec.parseBool NotAValidBoolean
         (TextInvalid text name) text required default)
  /\ (forall name text attributes required (default : Z),
     getText (mk name text [] attributes) required default
     = ValueCodec.decodeWithContext QString.toInt NotAValidInteger
         (TextInvalid text name) text required default)
  /\ (forall e name text required (default : bool),
     getAttribute (setAttribute e name text) name required default
     = ValueCodec.decodeWithContext ValueCodec.parseBool NotAValidBoolean
         (InvalidAttribute name text (mName e)) text required default)
  /\ (forall e name text required (default : Z),
     getAttribute (setAttribute e name text) name required default
     = ValueCodec.decodeWithContext QString.toInt NotAValidInteger
         (InvalidAttribute name text (mName e)) text required default)
  /\ (forall text name node inner,
     ValueCodec.carries (FileParseError "" (TextInvalid text node inner)) text
     = true
     /\ ValueCodec.carries
          (FileParseError "" (InvalidAttribute name text node inner)) text
        = true)
  /\ (forall text required default,
     stringToObject (T:=string) text required default
     = if QString.eqb default ""
       then ValueCodec.decode (fun t => Some t) NoMessage text required default
       else AssertFailed).
Proof.
  split; [exact stringToObject_bool_decode|].
  split; [exact stringToObject_int_decode|].
  split; [done|].
  split; [intros; apply getText_decode, stringToObject_bool_decode|].
  split; [intros; apply getText_decode, stringToObject_int_decode|].
  split; [intros; apply getAttribute_decode, stringToObject_bool_decode|].
  split; [intros; apply getAttribute_decode, stringToObject_int_decode|].
  split; [|exact stringToObject_QString_decode].
  intros text name node inner. unfold ValueCodec.carries.
  cbn [ValueCodec.mentions]. rewrite eqb_refl.
  split; by repeat first [rewrite orb_true_r | rewrite orb_true_l].
Qed.

(** C5 as stated fails: the text "yes" is not empty and does not parse as a
    [bool], the text "12a" does not parse as an [int], and the error of the
    decoding carries neither of them; and for a [QString] with the default
    "unnamed" the empty text that is not required does not give the
    default. *)
Lemma stringToObject_error_without_raw_text :
  QString.isEmpty "yes" = false
  /\ ValueCodec.parseBool "yes" = None
  /\ stringToObject (T:=bool) "yes" true false
     = Throw (RuntimeError NotAValidBoolean)
  /\ ValueCodec.carries (RuntimeError NotAValidBoolean) "yes" = false
  /\ QString.toInt "12a" = None
  /\ stringToObject (T:=Z) "12a" false 0
     = Throw (RuntimeError NotAValidInteger)
  /\ ValueCodec.carries (RuntimeError NotAValidInteger) "12a" = false
  /\ stringToObject (T:=string) "" false "unnamed" = AssertFailed
  /\ stringToObject (T:=string) "" false "unnamed" <> Return "unnamed".
Proof. repeat split. discriminate. Qed.

Lemma getAttribute_absent {T} `{Conversion T} e name throwIfEmpty (defaultValue : T) :
  mAttributes e !! name = None ->
  getAttribute e name throwIfEmpty defaultValue
  = Throw (FileParseError "" (AttributeNotFound name (mName e))).
Proof. intros Hnone. unfold getAttribute. by rewrite Hnone. Qed.

(** C1 (amended).  For an attribute name that is absent from the attribute
    map, [getAttribute] fails with the [FileParseError] "attribute not
    found" (the specification's MissingReference) whatever [throwIfEmpty]
    is, and for every type.  The default is returned, without a failure,
    when the attribute is present with an empty value and [throwIfEmpty] is
    false. *)
Theorem getAttribute_absent_or_empty (e : t) (name : string)
  (Habsent : mAttributes e !! name = None) :
  (forall T (C : Conversion T) throwIfEmpty (defaultValue : T),
     getAttribute e name throwIfEmpty defaultValue
     = Throw (FileParseError "" (AttributeNotFound name (mName e))))
  /\ (forall defaultValue : bool,
     getAttribute (setAttribute e name "") name false defaultValue
     = Return defaultValue)
  /\ (forall defaultValue : Z,
     getAttribute (setAttribute e name "") name false defaultValue
     = Return defaultValue).
Proof.
  split; [intros; by apply getAttribute_absent|].
  split; intros d.
  - by rewrite (getAttribute_decode ValueCodec.parseBool NotAValidBoolean)
      by apply stringToObject_bool_decode.
  - by rewrite (getAttribute_decode QString.toInt NotAValidInteger)
      by apply stringToObject_int_decode.
Qed.

Lemma getAttribute_absent_or_empty_witness :
  getAttribute (new "signal" "VCC") "required" false true
  = Throw (FileParseError "" (AttributeNotFound "required" "signal"))
  /\ getAttribute (setAttribute (new "signal" "VCC") "required" "") "required"
       false true = Return true.
Proof.
  pose proof (getAttribute_absent_or_empty (new "signal" "VCC") "required"
                eq_refl) as (Habs & Hbool & _).
  split; [apply Habs | apply Hbool].
Defined.

(** C1 as stated fails: the attribute is absent, [throwIfEmpty] is false,
    and [getAttribute] throws instead of returning the default [true]. *)
Lemma getAttribute_absent_not_default :
  mAttributes (new "signal" "VCC") !! "required" = None
  /\ getAttribute (new "signal" "VCC") "required" false true
     = Throw (FileParseError "" (AttributeNotFound "required" "signal"))
  /\ getAttribute (new "signal" "VCC") "required" false true <> Return true.
Proof. repeat split. discriminate. Qed.

(** C6.  [setText] on an element that has a child is refused (the
    [Q_ASSERT] fails: a precondition violation) and returns no element, so
    no text is set; [appendChild] on an element whose text is not empty is
    refused in the same way, and no child is appended. *)
Theorem setText_appendChild_rejected (e : t) :
  (hasChilds e = true ->
   forall T (C : Conversion T) (value : T),
     setText e value = PreconditionViolation)
  /\ (mText e <> "" ->
      forall child, appendChild e child = PreconditionViolation).
Proof.
  split.
  - intros Hc T C value. unfold setText. by rewrite Hc.
  - intros Ht child. unfold appendChild.
    destruct (mText e); [done|reflexivity].
Qed.

Lemma setText_appendChild_rejected_witness :
  setText (mk "child" "" [new "text" "Some Text"] ∅) "Other Text"
  = PreconditionViolation
  /\ appendChild (new "text" "Some Text") (new "child" "")
     = PreconditionViolation.
Proof.
  split.
  - apply (setText_appendChild_rejected (mk "child" "" [new "text" "Some Text"] ∅)).
    reflexivity.
  - apply (setText_appendChild_rejected (new "text" "Some Text")).
    discriminate.
Defined.

End DomElementProperties.

(** ** DomElement: text and children exclude each other *)
Section DomElementInvariant.

Import DomElement.

Lemma invariant_unfold e :
  invariant e =
  (match mChilds e with [] => true | _ :: _ => QString.isEmpty (mText e) end)
  && forallb invariant (mChilds e).
Proof. by destruct e. Qed.

Lemma forallb_delete {A} (p : A -> bool) i (l : list A) :
  forallb p l = true -> forallb p (delete i l) = true.
Proof.
  revert i. induction l as [|x l IH]; intros i Hl; [done|].
  simpl in Hl. apply andb_prop in Hl as [Hx Hl].
  destruct i as [|i]; simpl; [done|]. by rewrite Hx, IH.
Qed.

Lemma invariant_new name text : invariant (new name text) = true.
Proof. reflexivity. Qed.

Lemma setText_keepsInvariant {T} `{Conversion T} e (value : T) :
  keepsInvariant (setText e value).
Proof.
  unfold setText, hasChilds. destruct e as [n t [|c cs] a]; simpl; done.
Qed.

Lemma appendChild_keepsInvariant e child :
  invariant e = true -> invariant child = true ->
  keepsInvariant (appendChild e child).
Proof.
  intros He Hc. unfold appendChild, Q_ASSERT.
  destruct (QString.isEmpty (mText e)) eqn:Ht; [|done].
  unfold keepsInvariant. rewrite invariant_unfold in He |- *.
  cbn [mChilds mText].
  apply andb_prop in He as [_ Hcs].
  rewrite forallb_app, Hcs. simpl. rewrite Hc, Ht.
  by destruct (mChilds e).
Qed.

Lemma removeChild_keepsInvariant e child deleteChild :
  invariant e = true -> keepsInvariant (removeChild e child deleteChild).
Proof.
  intros He. unfold removeChild, Q_ASSERT.
  case_bool_decide as Hlt; [|done].
  unfold keepsInvariant. rewrite invariant_unfold in He |- *.
  cbn [mChilds mText].
  apply andb_prop in He as [Htext Hcs].
  rewrite forallb_delete by done.
  destruct (mChilds e) as [|c cs]; [simpl in Hlt; lia|].
  rewrite Htext. by destruct (delete child (c :: cs)).
Qed.

(** C7.  A new element has the invariant (children and text are never both
    present, here and below), and on an element with the invariant each of
    [setText], [appendChild] (of a child with the invariant),
    [appendChild(name)], [appendTextChild] and [removeChild] either refuses
    the call or returns an element with the invariant. *)
Theorem operations_keep_invariant (e : t) (Hinv : invariant e = true) :
  (forall name text, invariant (new name text) = true)
  /\ (forall T (C : Conversion T) (value : T), keepsInvariant (setText e value))
  /\ (forall child, invariant child = true -> keepsInvariant (appendChild e child))
  /\ (forall name, keepsInvariant (appendChild_name e name))
  /\ (forall T (C : Conversion T) name (value : T),
        keepsInvariant (appendTextChild e name value))
  /\ (forall child deleteChild, keepsInvariant (removeChild e child deleteChild)).
Proof.
  split; [exact invariant_new|].
  split; [intros; apply setText_keepsInvariant|].
  split; [intros; by apply appendChild_keepsInvariant|].
  split; [intros; by apply appendChild_keepsInvariant|].
  split; [intros; by apply appendChild_keepsInvariant|].
  intros; by apply removeChild_keepsInvariant.
Qed.

Lemma operations_keep_invariant_witness :
  invariant (mk "child" "" [new "text" "Some Text"; new "empty_child" ""] ∅) = true
  /\ invariant (mk "child" "" [new "text" "Some Text"; new "empty_child" "";
                              new "version" "v1"] ∅) = true
  /\ invariant (mk "child" "" [new "empty_child" ""] ∅) = true.
Proof.
  pose proof (operations_keep_invariant
                (mk "child" "" [new "text" "Some Text"; new "empty_child" ""] ∅)
                eq_refl) as (_ & _ & _ & _ & Happend & Hremove).
  split; [reflexivity|]. split.
  - exact (Happend string _ "version" "v1").
  - exact (Hremove 0%nat true).
Defined.

End DomElementInvariant.

(** ** DomElement: writing a text and reading it back *)
Section TextRoundTrip.

Import DomElement.

Lemma setText_getText {T} `{Conversion T} e (value defaultValue : T) :
  hasChilds e = false ->
  (setText e value ≫= fun e' => getText e' true defaultValue)
  = try_rethrow (stringToObject (objectToString value) true defaultValue)
      (fun ex => FileParseError ""
                   (TextInvalid (objectToString value) (mName e) (getMsg ex))).
Proof.
  intros Hc. unfold setText. rewrite Hc. simpl.
  unfold getText. simpl. unfold hasChilds in *. simpl. by rewrite Hc.
Qed.

Lemma stringToObject_objectToString_bool (b d : bool) :
  stringToObject (objectToString b) true d = Return b.
Proof. by destruct b. Qed.

Lemma number_not_empty i : QString.isEmpty (QString.number i) = false.
Proof.
  unfold QString.number. destruct (i <? 0); [done|].
  pose proof (digits_not_empty 10 i "" ltac:(lia)).
  by destruct (QString.digits 10 i "").
Qed.

Lemma stringToObject_objectToString_int (i d : Z) :
  QString.isInt i -> stringToObject (objectToString i) true d = Return i.
Proof.
  intros Hi. simpl. unfold stringToObject_int, objectToString_int.
  unfold stringToObject_QString. simpl.
  rewrite number_not_empty. simpl. by rewrite toInt_number.
Qed.

Lemma toString_ISODate_not_empty d :
  QDateTime.isValid d = true -> 0 <= QDateTime.year d <= 9999 ->
  QString.isEmpty (QDateTime.toString_ISODate (QDateTime.toUTC d)) = false.
Proof.
  intros Hv Hy. unfold QDateTime.toString_ISODate.
  replace (QDateTime.isValid (QDateTime.toUTC d)) with true
    by (by destruct d).
  replace (QDateTime.year (QDateTime.toUTC d)) with (QDateTime.year d)
    by (by destruct d).
  destruct (Z.leb_spec 0 (QDateTime.year d)),
    (Z.leb_spec (QDateTime.year d) 9999); try lia.
  cbn [negb andb].
  by destruct (QString.padded 4 (QDateTime.year d)).
Qed.

Lemma stringToObject_objectToString_QDateTime (d dflt : QDateTime.t) :
  QDateTime.isValid d = true -> 0 <= QDateTime.year d <= 9999 ->
  stringToObject (objectToString d) true dflt = Return (QDateTime.wholeSeconds d).
Proof.
  intros Hv Hy.
  change (stringToObject_QDateTime (objectToString_QDateTime d) true dflt
          = Return (QDateTime.wholeSeconds d)).
  unfold stringToObject_QDateTime, objectToString_QDateTime.
  unfold stringToObject_QString, Q_ASSERT.
  rewrite toString_ISODate_not_empty by done.
  change (QString.eqb "" "") with true.
  cbv beta iota delta [mbind Result_bind andb].
  rewrite fromString_toString_ISODate by done.
  replace (QDateTime.isValid (QDateTime.toLocalTime _)) with true; [done|].
  symmetry. destruct (isValid_fields d Hv) as [Hdate Htime].
  unfold QDateTime.isValid. cbn. by rewrite Hdate, Htime.
Qed.

Lemma wholeSeconds_eqb d :
  QDateTime.msec d = 0 -> QDateTime.eqb (QDateTime.wholeSeconds d) d = true.
Proof.
  intros Hms. unfold QDateTime.eqb, QDateTime.wholeSeconds. cbn. rewrite Hms.
  by rewrite !Z.eqb_refl.
Qed.

(** C4 (amended).  On an element without children, [setText] followed by
    [getText] with [throwIfEmpty = true] returns the original value for
    every [bool] and every [int].  For a valid date-time of the years 0 to
    9999 it returns the date-time without its milliseconds, which equals
    the original one (under [operator==]) when the original has no
    milliseconds. *)
Theorem setText_getText_roundtrip (e : t) (Hleaf : hasChilds e = false) :
  (forall b defaultValue : bool,
     (setText e b ≫= fun e' => getText e' true defaultValue) = Return b)
  /\ (forall i defaultValue : Z,
     QString.isInt i ->
     (setText e i ≫= fun e' => getText e' true defaultValue) = Return i)
  /\ (forall d defaultValue : QDateTime.t,
     QDateTime.isValid d = true -> 0 <= QDateTime.year d <= 9999 ->
     (setText e d ≫= fun e' => getText e' true defaultValue)
     = Return (QDateTime.wholeSeconds d)
     /\ (QDateTime.msec d = 0 -> QDateTime.eqb (QDateTime.wholeSeconds d) d = true)).
Proof.
  split; [|split].
  - intros b dflt. rewrite setText_getText by done.
    by rewrite stringToObject_objectToString_bool.
  - intros i dflt Hi. rewrite setText_getText by done.
    by rewrite stringToObject_objectToString_int.
  - intros d dflt Hv Hy. split; [|apply wholeSeconds_eqb].
    rewrite setText_getText by done.
    by rewrite stringToObject_objectToString_QDateTime.
Qed.

Lemma setText_getText_roundtrip_witness :
  (setText (new "clock" "") false ≫= fun e' => getText e' true true)
  = Return false
  /\ (setText (new "count" "") (-5) ≫= fun e' => getText e' true 0)
     = Return (-5)
  /\ (setText (new "created" "")
        (QDateTime.mk 2015 2 1 12 30 59 0 QDateTime.UTC)
      ≫= fun e' => getText e' true QDateTime.null)
     = Return (QDateTime.mk 2015 2 1 12 30 59 0 QDateTime.LocalTime).
Proof.
  split; [|split].
  - apply (setText_getText_roundtrip (new "clock" "") eq_refl).
  - apply (setText_getText_roundtrip (new "count" "") eq_refl).
    unfold QString.isInt, QString.INT_MIN, QString.INT_MAX. lia.
  - pose proof (setText_getText_roundtrip (new "created" "") eq_refl)
      as (_ & _ & Hdate).
    apply (Hdate (QDateTime.mk 2015 2 1 12 30 59 0 QDateTime.UTC)).
    + reflexivity.
    + simpl. lia.
Defined.

(** C4 as stated fails for a valid date-time with milliseconds: the text
    written with [Qt::ISODate] has none, and the date-time read back differs
    from the original. *)
Lemma setText_getText_QDateTime_drops_msec :
  QDateTime.isValid (QDateTime.mk 2015 2 1 12 30 59 500 QDateTime.UTC) = true
  /\ (setText (new "created" "")
        (QDateTime.mk 2015 2 1 12 30 59 500 QDateTime.UTC)
      ≫= fun e' => getText e' true QDateTime.null)
     = Return (QDateTime.mk 2015 2 1 12 30 59 0 QDateTime.LocalTime)
  /\ QDateTime.eqb (QDateTime.mk 2015 2 1 12 30 59 0 QDateTime.LocalTime)
       (QDateTime.mk 2015 2 1 12 30 59 500 QDateTime.UTC) = false.
Proof. repeat split; vm_compute; reflexivity. Qed.

End TextRoundTrip.

(** ** ComponentSignal *)
Section ComponentSignalProperties.

Import ComponentSignal.

Context {Uuid SignalRole : Type}.
Context `{EqDecision Uuid} `{EqDecision SignalRole}.
Context `{SerializableObject Uuid} `{SerializableObject SignalRole}.
Variable isNull : Uuid -> bool.
Variable Uuid_default : Uuid.
Variable SignalRole_default : SignalRole.

#[local] Abbreviation Sig := (ComponentSignal.t Uuid SignalRole).

(** C8.  Each of the six setters returns the signal with the targeted field
    equal to the argument and every other field unchanged, and emits the
    signal of the field followed by [edited] exactly when the argument
    differs from the field; a setter called with the value of its field
    returns the signal as it was and emits nothing. *)
Theorem setters_update_and_notify (s : Sig) :
  (forall name,
     setName s name
     = (mk (mUuid s) name (mRole s) (mForcedNetName s)
           (mIsRequired s) (mIsNegated s) (mIsClock s),
        emitted name (mName s) (nameChanged name)))
  /\ (forall role,
     setRole s role
     = (mk (mUuid s) (mName s) role (mForcedNetName s)
           (mIsRequired s) (mIsNegated s) (mIsClock s),
        emitted role (mRole s) (roleChanged role)))
  /\ (forall name,
     setForcedNetName s name
     = (mk (mUuid s) (mName s) (mRole s) name
           (mIsRequired s) (mIsNegated s) (mIsClock s),
        emitted name (mForcedNetName s) (forcedNetNameChanged name)))
  /\ (forall required,
     setIsRequired s required
     = (mk (mUuid s) (mName s) (mRole s) (mForcedNetName s)
           required (mIsNegated s) (mIsClock s),
        emitted required (mIsRequired s) (isRequiredChanged required)))
  /\ (forall negated,
     setIsNegated s negated
     = (mk (mUuid s) (mName s) (mRole s) (mForcedNetName s)
           (mIsRequired s) negated (mIsClock s),
        emitted negated (mIsNegated s) (isNegatedChanged negated)))
  /\ (forall clock,
     setIsClock s clock
     = (mk (mUuid s) (mName s) (mRole s) (mForcedNetName s)
           (mIsRequired s) (mIsNegated s) clock,
        emitted clock (mIsClock s) (isClockChanged clock)))
  /\ setName s (mName s) = (s, [])
  /\ setRole s (mRole s) = (s, [])
  /\ setForcedNetName s (mForcedNetName s) = (s, [])
  /\ setIsRequired s (mIsRequired s) = (s, [])
  /\ setIsNegated s (mIsNegated s) = (s, [])
  /\ setIsClock s (mIsClock s) = (s, []).
Proof.
  destruct s as [u n r f q g c]. unfold emitted.
  repeat split; intros;
    unfold setName, setRole, setForcedNetName, setIsRequired, setIsNegated,
      setIsClock;
    cbn [mUuid mName mRole mForcedNetName mIsRequired mIsNegated mIsClock];
    case_bool_decide; subst; done.
Qed.

Hypothesis Uuid_text : forall u : Uuid,
  isNull u = false ->
  serializeToString u <> ""
  /\ deserializeFromString (serializeToString u) = Return u.
Hypothesis SignalRole_text : forall r : SignalRole,
  serializeToString r <> ""
  /\ deserializeFromString (serializeToString r) = Return r.

Lemma stringToObject_generic_roundtrip {T} `{SerializableObject T} (x d : T) :
  serializeToString x <> "" ->
  deserializeFromString (serializeToString x) = Return x ->
  DomElement.stringToObject (DomElement.objectToString x) true d = Return x.
Proof.
  intros Hne Hrt.
  change (DomElement.stringToObject_generic (serializeToString x) true d = Return x).
  unfold DomElement.stringToObject_generic, DomElement.stringToObject_QString.
  destruct (serializeToString x) eqn:E; [done|].
  cbn. by rewrite Hrt.
Qed.

Ltac lookup_attribute :=
  cbn [DomElement.mAttributes];
  repeat first [rewrite lookup_insert_eq | rewrite lookup_insert_ne by done];
  reflexivity.

Lemma getAttribute_present {T} `{DomElement.Conversion T} e name value
    throwIfEmpty (d x : T) :
  DomElement.mAttributes e !! name = Some value ->
  DomElement.stringToObject value throwIfEmpty d = Return x ->
  DomElement.getAttribute e name throwIfEmpty d = Return x.
Proof.
  intros Hl Hs. unfold DomElement.getAttribute. by rewrite Hl, Hs.
Qed.

(** C9.  For a signal with a non-null uuid and a non-empty name and an
    element without children, [serialize] succeeds, and the signal
    constructed from the serialized element is the original signal, hence
    equal to it under [operator==].  [Uuid] and [SignalRole] are assumed to
    read back what they write. *)
Theorem serialize_fromDomElement (s : Sig) (root : DomElement.t)
  (Hvalid : checkAttributesValidity isNull s = true)
  (Hleaf : DomElement.hasChilds root = false) :
  exists e,
    serialize isNull s root = Return e
    /\ fromDomElement isNull Uuid_default SignalRole_default e = Return s
    /\ eqb s s = true.
Proof.
  destruct s as [u n r f q g c].
  unfold checkAttributesValidity in Hvalid. cbn in Hvalid.
  destruct (isNull u) eqn:Hu; [done|].
  destruct n as [|n0 n]; [done|].
  destruct (Uuid_text u Hu) as [Hune Hurt].
  destruct (SignalRole_text r) as [Hrne Hrrt].
  eexists. split; [|split].
  - unfold serialize, checkAttributesValidity. cbn [mUuid mName].
    rewrite Hu. cbn [QString.isEmpty negb].
    unfold DomElement.setText, DomElement.setAttribute, DomElement.hasChilds in *.
    cbn [DomElement.mChilds DomElement.mName DomElement.mText DomElement.mAttributes].
    rewrite Hleaf. reflexivity.
  - unfold fromDomElement.
    cbn [mUuid mName mRole mForcedNetName mIsRequired mIsNegated mIsClock].
    rewrite (getAttribute_present _ "uuid" (serializeToString u) true _ u);
      [|lookup_attribute|by apply stringToObject_generic_roundtrip].
    rewrite (getAttribute_present _ "role" (serializeToString r) true _ r);
      [|lookup_attribute|by apply stringToObject_generic_roundtrip].
    rewrite (getAttribute_present _ "forced_net_name" f false _ f);
      [|lookup_attribute|by destruct f].
    rewrite (getAttribute_present _ "required"
               (DomElement.objectToString_bool q) true _ q);
      [|lookup_attribute|by destruct q].
    rewrite (getAttribute_present _ "negated"
               (DomElement.objectToString_bool g) true _ g);
      [|lookup_attribute|by destruct g].
    rewrite (getAttribute_present _ "clock"
               (DomElement.objectToString_bool c) true _ c);
      [|lookup_attribute|by destruct c].
    unfold DomElement.getText, DomElement.hasChilds in *.
    cbn [DomElement.mChilds DomElement.mName DomElement.mText].
    rewrite Hleaf. cbn.
    unfold checkAttributesValidity. cbn. by rewrite Hu.
  - unfold eqb. by rewrite !bool_decide_eq_true_2.
Qed.

End ComponentSignalProperties.

(** ** ProjectMetadata and CmdProjectSetMetadata *)
Section ProjectMetadataProperties.
Context {AttributeList : Type} `{EqDecision AttributeList}.

(** C10.  [setLastModified] returns the metadata as it was, whatever the
    argument: no field changes, the last-modified time included. *)
Theorem setLastModified_no_effect
  (m : ProjectMetadata.t AttributeList) (newLastModified : QDateTime.t) :
  ProjectMetadata.setLastModified m newLastModified = m
  /\ ProjectMetadata.mLastModified
       (ProjectMetadata.setLastModified m newLastModified)
     = ProjectMetadata.mLastModified m.
Proof. split; reflexivity. Qed.

End ProjectMetadataProperties.

Section CmdProjectSetMetadataProperties.
Import CmdProjectSetMetadata.
Context {AttributeList : Type} `{EqDecision AttributeList}.
Variable AttributeList_default : AttributeList.

Lemma performExecute_project c (p : Project.t AttributeList) :
  exists changed, performExecute c p = Return (changed, (c, p)).
Proof.
  unfold performExecute, performRedo. cbn.
  repeat case_match; eauto.
Qed.

Lemma execute_project c (p : Project.t AttributeList) r :
  execute c p = Return r -> r.2.2 = p /\ isCurrentlyExecuted r.2.1 = true.
Proof.
  unfold execute. destruct (wasEverExecuted c); [done|].
  destruct (performExecute_project c p) as [changed ->]. cbn.
  by intros [= <-].
Qed.

(** [execute] followed by [undo] returns the project that was given, since
    neither of them writes to it. *)
Lemma execute_undo_leave_project c (p : Project.t AttributeList) changed c1 p1
  (Hexec : execute c p = Return (changed, (c1, p1))) :
  exists c2 p2,
    undo c1 p1 = Return (c2, p2)
    /\ Project.getName p2 = Project.getName p
    /\ Project.getAuthor p2 = Project.getAuthor p
    /\ Project.getVersion p2 = Project.getVersion p
    /\ Project.getAttributes p2 = Project.getAttributes p.
Proof.
  apply execute_project in Hexec as [Hp Hc]. cbn in Hp, Hc. subst p1.
  exists (setFlags c1 true true), p. unfold undo. rewrite Hc. cbn. done.
Qed.

End CmdProjectSetMetadataProperties.

Section Examples.

Import CmdProjectSetMetadata.

Lemma Sample_Uuid_text (u : Sample.Uuid) :
  Sample.isNull u = false ->
  serializeToString u <> ""
  /\ deserializeFromString (serializeToString u) = Return u.
Proof. by destruct u. Qed.

Lemma Sample_SignalRole_text (r : Sample.SignalRole) :
  serializeToString r <> ""
  /\ deserializeFromString (serializeToString r) = Return r.
Proof. by destruct r. Qed.

Lemma serialize_fromDomElement_witness :
  exists e,
    ComponentSignal.serialize Sample.isNull Sample.signal
      (DomElement.new "signal" "") = Return e
    /\ ComponentSignal.fromDomElement Sample.isNull "" Sample.passive e
       = Return Sample.signal
    /\ ComponentSignal.eqb Sample.signal Sample.signal = true.
Proof.
  apply (serialize_fromDomElement Sample.isNull "" Sample.passive
           Sample_Uuid_text Sample_SignalRole_text
           Sample.signal (DomElement.new "signal" ""));
    reflexivity.
Defined.

(** C2 fails on the code: the command with the staged name "new name"
    executes on a project named "old name", reports a change, and the
    project is what it was. *)
Lemma execute_reports_change_without_writing :
  exists c c',
    (setName (new [] Sample.project) "new name") = Return c
    /\ execute c Sample.project = Return (true, (c', Sample.project))
    /\ Project.getName Sample.project = "old name".
Proof. eexists _, _. repeat split. Qed.

End Examples.

(** * Further properties of the modelled code *)

(** ** DomElement: attributes *)
Section AttributeProperties.

Import DomElement.

Lemma getAttribute_setAttribute {T} `{Conversion T} e name (value : T)
    throwIfEmpty (defaultValue : T) :
  getAttribute (setAttribute e name value) name throwIfEmpty defaultValue
  = try_rethrow
      (stringToObject (objectToString value) throwIfEmpty defaultValue)
      (fun ex => FileParseError ""
         (InvalidAttribute name (objectToString value) (mName e) (getMsg ex))).
Proof.
  unfold getAttribute, setAttribute. cbn [mAttributes mName].
  by rewrite lookup_insert_eq.
Qed.

Lemma stringToObject_objectToString_bool_any (b d : bool) throwIfEmpty :
  stringToObject (objectToString b) throwIfEmpty d = Return b.
Proof. by destruct b, throwIfEmpty. Qed.

Lemma stringToObject_objectToString_int_any (i d : Z) throwIfEmpty :
  QString.isInt i -> stringToObject (objectToString i) throwIfEmpty d = Return i.
Proof.
  intros Hi. change (stringToObject_int (QString.number i) throwIfEmpty d = Return i).
  unfold stringToObject_int, stringToObject_QString, Q_ASSERT.
  change (QString.eqb "" "") with true. cbv beta iota.
  rewrite number_not_empty. cbn [andb].
  cbv beta iota delta [mbind Result_bind].
  by rewrite toInt_number.
Qed.

Lemma stringToObject_objectToString_QDateTime_any (d dflt : QDateTime.t) throwIfEmpty :
  QDateTime.isValid d = true -> 0 <= QDateTime.year d <= 9999 ->
  stringToObject (objectToString d) throwIfEmpty dflt
  = Return (QDateTime.wholeSeconds d).
Proof.
  intros Hv Hy.
  change (stringToObject_QDateTime (objectToString_QDateTime d) throwIfEmpty dflt
          = Return (QDateTime.wholeSeconds d)).
  unfold stringToObject_QDateTime, objectToString_QDateTime.
  unfold stringToObject_QString, Q_ASSERT.
  rewrite toString_ISODate_not_empty by done.
  change (QString.eqb "" "") with true.
  cbv beta iota delta [mbind Result_bind andb].
  rewrite fromString_toString_ISODate by done.
  replace (QDateTime.isValid (QDateTime.toLocalTime _)) with true; [done|].
  symmetry. destruct (isValid_fields d Hv) as [Hdate Htime].
  unfold QDateTime.isValid. cbn. by rewrite Hdate, Htime.
Qed.

(** X1.  An attribute written with [setAttribute] is read back by
    [getAttribute] under the same name, whatever [throwIfEmpty] and the
    default are: exactly for a [bool] and for an [int], and without its
    milliseconds for a valid date-time of the years 0 to 9999. *)
Theorem getAttribute_setAttribute_roundtrip (e : t) (name : string)
    (throwIfEmpty : bool) :
  (forall b defaultValue : bool,
     getAttribute (setAttribute e name b) name throwIfEmpty defaultValue
     = Return b)
  /\ (forall i defaultValue : Z,
     QString.isInt i ->
     getAttribute (setAttribute e name i) name throwIfEmpty defaultValue
     = Return i)
  /\ (forall d defaultValue : QDateTime.t,
     QDateTime.isValid d = true -> 0 <= QDateTime.year d <= 9999 ->
     getAttribute (setAttribute e name d) name throwIfEmpty defaultValue
     = Return (QDateTime.wholeSeconds d)).
Proof.
  split; [|split]; intros; rewrite getAttribute_setAttribute.
  - by rewrite stringToObject_objectToString_bool_any.
  - by rewrite stringToObject_objectToString_int_any.
  - by rewrite stringToObject_objectToString_QDateTime_any.
Qed.

Lemma getAttribute_setAttribute_roundtrip_witness :
  getAttribute (setAttribute (new "signal" "VCC") "required" true)
    "required" true false = Return true
  /\ getAttribute (setAttribute (new "pad" "") "x" (-2540000)) "x" false 0
     = Return (-2540000)
  /\ getAttribute
       (setAttribute (new "project" "") "created"
          (QDateTime.mk 2016 7 4 9 30 15 250 QDateTime.LocalTime))
       "created" true QDateTime.null
     = Return (QDateTime.mk 2016 7 4 9 30 15 0 QDateTime.LocalTime).
Proof.
  split; [|split].
  - apply (getAttribute_setAttribute_roundtrip (new "signal" "VCC") "required" true).
  - apply (getAttribute_setAttribute_roundtrip (new "pad" "") "x" false).
    unfold QString.isInt, QString.INT_MIN, QString.INT_MAX. lia.
  - pose proof (getAttribute_setAttribute_roundtrip (new "project" "")
                  "created" true) as (_ & _ & Hd).
    apply (Hd (QDateTime.mk 2016 7 4 9 30 15 250 QDateTime.LocalTime)).
    + reflexivity.
    + simpl. lia.
Defined.

(** X2.  [setAttribute] touches one attribute only: what [getAttribute] and
    [hasAttribute] give for any other name, what [getText] gives, the tag
    name and the children are as before. *)
Theorem setAttribute_frame {T} `{Conversion T} (e : t) (name other : string)
    (value : T) (Hother : other <> name) :
  (forall U (C : Conversion U) throwIfEmpty (defaultValue : U),
     getAttribute (setAttribute e name value) other throwIfEmpty defaultValue
     = getAttribute e other throwIfEmpty defaultValue)
  /\ hasAttribute (setAttribute e name value) other = hasAttribute e other
  /\ (forall U (C : Conversion U) throwIfEmpty (defaultValue : U),
     getText (setAttribute e name value) throwIfEmpty defaultValue
     = getText e throwIfEmpty defaultValue)
  /\ getName (setAttribute e name value) = getName e
  /\ getChilds (setAttribute e name value) = getChilds e.
Proof.
  repeat split.
  - intros U C throwIfEmpty d. unfold getAttribute, setAttribute.
    cbn [mAttributes mName]. by rewrite lookup_insert_ne.
  - unfold hasAttribute, setAttribute. cbn [mAttributes].
    by rewrite lookup_insert_ne.
Qed.

Lemma setAttribute_frame_witness :
  getAttribute (setAttribute (setAttribute (new "signal" "VCC") "clock" false)
                  "required" true) "clock" true true = Return false.
Proof.
  pose proof (setAttribute_frame
                (setAttribute (new "signal" "VCC") "clock" false)
                "required" "clock" true ltac:(discriminate)) as (Hget & _).
  rewrite Hget. reflexivity.
Defined.

(** X3.  Setting an attribute twice keeps the last value only, setting two
    different attributes gives the same element in either order, and an
    attribute that was set exists. *)
Theorem setAttribute_overwrites_and_commutes
    {T} `{Conversion T} {U} `{Conversion U} (e : t) (name other : string)
    (v1 v2 : T) (u : U) :
  setAttribute (setAttribute e name v1) name v2 = setAttribute e name v2
  /\ (other <> name ->
      setAttribute (setAttribute e name v1) other u
      = setAttribute (setAttribute e other u) name v1)
  /\ hasAttribute (setAttribute e name v1) name = true.
Proof.
  unfold setAttribute, hasAttribute. cbn [mName mText mChilds mAttributes].
  split; [|split].
  - by rewrite insert_insert_eq.
  - intros Hne. f_equal. by apply insert_insert_ne.
  - rewrite lookup_insert_eq. by apply bool_decide_eq_true_2.
Qed.

Lemma setAttribute_overwrites_and_commutes_witness :
  setAttribute (setAttribute (new "signal" "VCC") "required" true) "clock" 5
  = setAttribute (setAttribute (new "signal" "VCC") "clock" 5) "required" true.
Proof.
  apply (setAttribute_overwrites_and_commutes (new "signal" "VCC")
           "required" "clock" true true 5).
  discriminate.
Defined.

End AttributeProperties.

Section TextProperties.

Import DomElement.

Lemma setText_getText_any {T} `{Conversion T} e (value defaultValue : T)
    throwIfEmpty :
  hasChilds e = false ->
  (setText e value ≫= fun e' => getText e' throwIfEmpty defaultValue)
  = try_rethrow (stringToObject (objectToString value) throwIfEmpty defaultValue)
      (fun ex => FileParseError ""
                   (TextInvalid (objectToString value) (mName e) (getMsg ex))).
Proof.
  intros Hc. unfold setText. rewrite Hc. simpl.
  unfold getText. simpl. unfold hasChilds in *. simpl. by rewrite Hc.
Qed.

(** X4.  A [QString] text written with [setText] is read back unchanged by
    [getText]; the empty text is read back as the empty text when it is not
    required and is a [FileParseError] ("String is empty") when it is
    required.  A default other than the empty string violates the
    [Q_ASSERT] of the [QString] specialisation. *)
Theorem setText_getText_QString (e : t) (text : string)
    (Hleaf : hasChilds e = false) :
  (setText e text ≫= fun e' => getText e' false "") = Return text
  /\ (setText e text ≫= fun e' => getText e' true "")
     = (if QString.isEmpty text
        then Throw (FileParseError "" (TextInvalid "" (mName e) StringIsEmpty))
        else Return text)
  /\ (forall throwIfEmpty defaultValue,
        defaultValue <> "" ->
        (setText e text ≫= fun e' => getText e' throwIfEmpty defaultValue)
        = AssertFailed).
Proof.
  split; [|split]; intros; rewrite setText_getText_any by done.
  - by destruct text.
  - by destruct text.
  - change (try_rethrow (stringToObject_QString text throwIfEmpty defaultValue)
      (fun ex => FileParseError "" (TextInvalid text (mName e) (getMsg ex)))
      = AssertFailed).
    unfold stringToObject_QString, Q_ASSERT, QString.eqb.
    by rewrite bool_decide_eq_false_2.
Qed.

Lemma setText_getText_QString_witness :
  (setText (new "name" "") "VCC" ≫= fun e' => getText e' true "") = Return "VCC"
  /\ (setText (new "name" "") "" ≫= fun e' => getText e' true "")
     = Throw (FileParseError "" (TextInvalid "" "name" StringIsEmpty))
  /\ (setText (new "name" "") "VCC" ≫= fun e' => getText e' false "unnamed")
     = AssertFailed.
Proof.
  pose proof (setText_getText_QString (new "name" "") "VCC" eq_refl)
    as (_ & Hreq & Hdef).
  pose proof (setText_getText_QString (new "name" "") "" eq_refl)
    as (_ & Hempty & _).
  split; [exact Hreq|]. split; [exact Hempty|].
  apply Hdef. discriminate.
Defined.

(** X5.  [setText] and [setAttribute] do not interfere: they give the same
    outcome in either order, [setText] leaves every attribute as it is, and
    of two [setText] in a row only the second counts. *)
Theorem setText_setAttribute_independent
    {T} `{Conversion T} {U} `{Conversion U}
    (e : t) (name : string) (value : T) (text : U) :
  setText (setAttribute e name value) text
  = (setText e text ≫= fun e' => Return (setAttribute e' name value))
  /\ (forall V (C : Conversion V) other throwIfEmpty (defaultValue : V),
        (setText e text ≫= fun e' =>
           getAttribute e' other throwIfEmpty defaultValue)
        = (setText e text ≫= fun _ =>
             getAttribute e other throwIfEmpty defaultValue))
  /\ (forall text' : U,
        (setText e text ≫= fun e' => setText e' text') = setText e text').
Proof.
  unfold setText, setAttribute, hasChilds, Q_ASSERT.
  cbn [mName mText mChilds mAttributes].
  split; [|split]; intros; by destruct (mChilds e).
Qed.

End TextProperties.

Section IntegerProperties.

Import DomElement.

Lemma toInt_isInt s v : QString.toInt s = Some v -> QString.isInt v.
Proof.
  unfold QString.toInt. intros Hs.
  match type of Hs with
  | match ?x with _ => _ end = _ => destruct x as [n|]; [|done]
  end.
  destruct (QString.isIntb n) eqn:E; [|done]. injection Hs as <-.
  unfold QString.isIntb in E. apply andb_prop in E as [H1 H2].
  apply Z.leb_le in H1, H2. by split.
Qed.

(** X6.  Every value that decoding a text as an [int] returns (with a
    default that is an [int]) is within the range of [int], and the
    canonical text of that value decodes to the same value: white space,
    a plus sign and leading zeros of the original text are normalised
    away. *)
Theorem stringToObject_int_range (text : string) (throwIfEmpty : bool)
    (defaultValue value : Z)
    (Hdefault : QString.isInt defaultValue)
    (Hvalue : stringToObject (T:=Z) text throwIfEmpty defaultValue = Return value) :
  QString.isInt value
  /\ stringToObject (objectToString value) throwIfEmpty defaultValue = Return value.
Proof.
  assert (Hint : QString.isInt value).
  { change (stringToObject_int text throwIfEmpty defaultValue = Return value)
      in Hvalue.
    rewrite stringToObject_int_decode in Hvalue.
    unfold ValueCodec.decode in Hvalue.
    destruct (QString.isEmpty text).
    - destruct throwIfEmpty; inversion Hvalue; by subst.
    - destruct (QString.toInt text) as [v|] eqn:Hv; inversion Hvalue; subst.
      by apply toInt_isInt in Hv. }
  split; [done|].
  by apply stringToObject_objectToString_int_any.
Qed.

Lemma stringToObject_int_range_witness :
  QString.isInt 42
  /\ stringToObject (objectToString 42) true 0 = Return 42.
Proof.
  apply (stringToObject_int_range " +042 " true 0 42).
  - unfold QString.isInt, QString.INT_MIN, QString.INT_MAX. lia.
  - reflexivity.
Defined.

Lemma isIntb_false n : ~ QString.isInt n -> QString.isIntb n = false.
Proof.
  unfold QString.isInt, QString.isIntb. intros Hn.
  apply not_true_is_false. intros [H1 H2]%andb_prop.
  apply Z.leb_le in H1, H2. by apply Hn.
Qed.

(** X7.  A decimal numeral above [INT_MAX], or below [INT_MIN], is not
    wrapped or clamped: decoding it as an [int] fails with "not a valid
    integer". *)
Theorem stringToObject_int_out_of_range (fuel : nat) (n : Z)
    (throwIfEmpty : bool) (defaultValue : Z)
    (Hfuel : (0 < fuel)%nat) (Hn : 0 <= n < 10 ^ Z.of_nat fuel) :
  (QString.INT_MAX < n ->
   stringToObject (T:=Z) (QString.digits fuel n "") throwIfEmpty defaultValue
   = Throw (RuntimeError NotAValidInteger))
  /\ (- n < QString.INT_MIN ->
      stringToObject (T:=Z) (String "-" (QString.digits fuel n ""))
        throwIfEmpty defaultValue
      = Throw (RuntimeError NotAValidInteger)).
Proof.
  pose proof (digits_not_empty fuel n "" Hfuel) as Hne.
  pose proof (all_digits_digits fuel n "" ltac:(lia) eq_refl) as Hall.
  pose proof (parseDigits_digits_0 fuel n Hn) as Hparse.
  split; intros Hout.
  - change (stringToObject_int (QString.digits fuel n "") throwIfEmpty
              defaultValue = Throw (RuntimeError NotAValidInteger)).
    rewrite stringToObject_int_decode. unfold ValueCodec.decode.
    rewrite toInt_all_digits, Hparse by done.
    rewrite isIntb_false by (unfold QString.isInt; lia).
    by destruct (QString.digits fuel n "").
  - change (stringToObject_int (String "-" (QString.digits fuel n ""))
              throwIfEmpty defaultValue = Throw (RuntimeError NotAValidInteger)).
    rewrite stringToObject_int_decode. unfold ValueCodec.decode.
    cbn [QString.isEmpty].
    replace (QString.toInt (String "-" (QString.digits fuel n ""))) with (@None Z);
      [done|].
    unfold QString.toInt. rewrite trimmed_no_space.
    + unfold QString.parseUnsigned.
      destruct (QString.digits fuel n "") as [|c r] eqn:Hd; [done|].
      rewrite Hparse. cbn [option_map].
      by rewrite isIntb_false by (unfold QString.isInt; lia).
    + change (QString.all (fun c => negb (QString.isSpace c))
                (QString.digits fuel n "") = true).
      by apply all_digits_no_space.
Qed.

Lemma stringToObject_int_out_of_range_witness :
  stringToObject (T:=Z) "2147483648" true 0
  = Throw (RuntimeError NotAValidInteger)
  /\ stringToObject (T:=Z) "-2147483649" false 0
     = Throw (RuntimeError NotAValidInteger).
Proof.
  split.
  - apply (stringToObject_int_out_of_range 10 2147483648 true 0);
      [lia | change (10 ^ Z.of_nat 10) with 10000000000; lia
      | unfold QString.INT_MAX; lia].
  - apply (stringToObject_int_out_of_range 10 2147483649 false 0);
      [lia | change (10 ^ Z.of_nat 10) with 10000000000; lia
      | unfold QString.INT_MIN; lia].
Defined.

End IntegerProperties.

Section EncodingProperties.

Import DomElement.

(** X8.  The texts of two different booleans, and of two different [int]s,
    are different. *)
Theorem objectToString_injective :
  (forall b1 b2 : bool, objectToString b1 = objectToString b2 -> b1 = b2)
  /\ (forall i j : Z,
        QString.isInt i -> QString.isInt j ->
        objectToString i = objectToString j -> i = j).
Proof.
  split.
  - by intros [] [].
  - intros i j Hi Hj Heq.
    change (QString.number i = QString.number j) in Heq.
    pose proof (toInt_number i Hi) as Hti. rewrite Heq in Hti.
    rewrite (toInt_number j Hj) in Hti. by injection Hti.
Qed.

Lemma objectToString_injective_witness :
  objectToString 2147483647 <> objectToString (-2147483647).
Proof.
  intros Heq.
  destruct objectToString_injective as [_ Hint].
  apply Hint in Heq; [discriminate| |];
    unfold QString.isInt, QString.INT_MIN, QString.INT_MAX; lia.
Defined.

Lemma toString_ISODate_fields d1 d2 :
  QDateTime.isValid d1 = true -> QDateTime.isValid d2 = true ->
  QDateTime.wholeSeconds d1 = QDateTime.wholeSeconds d2 ->
  QDateTime.toString_ISODate (QDateTime.toUTC d1)
  = QDateTime.toString_ISODate (QDateTime.toUTC d2).
Proof.
  intros Hv1 Hv2 Heq. destruct d1, d2.
  unfold QDateTime.wholeSeconds in Heq. cbn in Heq.
  injection Heq as -> -> -> -> -> ->.
  unfold QDateTime.toString_ISODate, QDateTime.toUTC.
  cbn [QDateTime.year QDateTime.month QDateTime.day QDateTime.hour
       QDateTime.minute QDateTime.second QDateTime.msec QDateTime.timeSpec].
  unfold QDateTime.isValid in *.
  cbn [QDateTime.year QDateTime.month QDateTime.day QDateTime.hour
       QDateTime.minute QDateTime.second QDateTime.msec QDateTime.timeSpec] in *.
  by rewrite Hv1, Hv2.
Qed.

(** X9.  Two valid date-times of the years 0 to 9999 have the same text
    exactly when they are the same instant up to whole seconds: the time
    spec and the milliseconds do not show in the text. *)
Theorem objectToString_QDateTime_canonical (d1 d2 : QDateTime.t)
    (Hvalid1 : QDateTime.isValid d1 = true)
    (Hvalid2 : QDateTime.isValid d2 = true)
    (Hyear1 : 0 <= QDateTime.year d1 <= 9999)
    (Hyear2 : 0 <= QDateTime.year d2 <= 9999) :
  objectToString d1 = objectToString d2
  <-> QDateTime.wholeSeconds d1 = QDateTime.wholeSeconds d2.
Proof.
  change (objectToString d1) with (objectToString_QDateTime d1).
  change (objectToString d2) with (objectToString_QDateTime d2).
  unfold objectToString_QDateTime. split.
  - intros Heq.
    pose proof (fromString_toString_ISODate d1 Hvalid1 Hyear1) as H1.
    pose proof (fromString_toString_ISODate d2 Hvalid2 Hyear2) as H2.
    rewrite Heq, H2 in H1. unfold QDateTime.wholeSeconds. congruence.
  - by apply toString_ISODate_fields.
Qed.

Lemma objectToString_QDateTime_canonical_witness :
  objectToString (QDateTime.mk 2016 7 4 9 30 15 250 QDateTime.LocalTime)
  = objectToString (QDateTime.mk 2016 7 4 9 30 15 999 QDateTime.UTC).
Proof.
  apply (objectToString_QDateTime_canonical
           (QDateTime.mk 2016 7 4 9 30 15 250 QDateTime.LocalTime)
           (QDateTime.mk 2016 7 4 9 30 15 999 QDateTime.UTC));
    first [reflexivity | simpl; lia].
Defined.

End EncodingProperties.

Section GenericConversion.

Import DomElement.

Context {T : Type} `{SerializableObject T}.

Lemma stringToObject_generic_unfold (text : string) (throwIfEmpty : bool)
    (defaultValue : T) :
  stringToObject text throwIfEmpty defaultValue
  = if QString.isEmpty text then
      if throwIfEmpty then Throw (RuntimeError StringIsEmpty)
      else match deserializeFromString "" with
           | Throw _ => Return defaultValue
           | r => r
           end
    else deserializeFromString text.
Proof.
  change (stringToObject text throwIfEmpty defaultValue)
    with (stringToObject_generic text throwIfEmpty defaultValue).
  unfold stringToObject_generic, stringToObject_QString, Q_ASSERT.
  change (QString.eqb "" "") with true. cbv beta iota.
  destruct text as [|c text]; cbn [QString.isEmpty andb].
  - by destruct throwIfEmpty.
  - cbv beta iota delta [mbind Result_bind].
    by destruct (deserializeFromString (String c text)).
Qed.

(** X10.  For a type that converts itself, a text that is not empty decodes
    to exactly what [deserializeFromString] gives, its exception included;
    the empty text fails with "String is empty" when it is required, and
    otherwise gives the default only if [deserializeFromString] throws on
    it. *)
Theorem stringToObject_generic_cases (text : string) (throwIfEmpty : bool)
    (defaultValue : T) :
  stringToObject text throwIfEmpty defaultValue
  = if QString.isEmpty text then
      if throwIfEmpty then Throw (RuntimeError StringIsEmpty)
      else match deserializeFromString "" with
           | Throw _ => Return defaultValue
           | r => r
           end
    else deserializeFromString text.
Proof. apply stringToObject_generic_unfold. Qed.

(** X11.  A value of a type that converts itself, whose text is not empty
    and is read back by [deserializeFromString], survives
    [setAttribute] / [getAttribute] and [setText] / [getText]. *)
Theorem generic_roundtrip (e : t) (name : string) (x defaultValue : T)
    (Hne : serializeToString x <> "")
    (Hreads : deserializeFromString (serializeToString x) = Return x) :
  (forall throwIfEmpty,
     getAttribute (setAttribute e name x) name throwIfEmpty defaultValue
     = Return x)
  /\ (hasChilds e = false ->
      forall throwIfEmpty,
        (setText e x ≫= fun e' => getText e' throwIfEmpty defaultValue)
        = Return x).
Proof.
  assert (Hdec : forall throwIfEmpty,
    stringToObject (objectToString x) throwIfEmpty defaultValue = Return x).
  { intros throwIfEmpty. rewrite stringToObject_generic_unfold.
    change (objectToString x) with (serializeToString x).
    rewrite Hreads. by destruct (serializeToString x). }
  split.
  - intros throwIfEmpty. by rewrite getAttribute_setAttribute, Hdec.
  - intros Hleaf throwIfEmpty. by rewrite setText_getText_any, Hdec.
Qed.

End GenericConversion.

Lemma generic_roundtrip_witness :
  DomElement.getAttribute
    (DomElement.setAttribute (DomElement.new "signal" "VCC") "role" Sample.power)
    "role" true Sample.passive = Return Sample.power
  /\ (DomElement.setText (DomElement.new "role" "") Sample.power
      ≫= fun e' => DomElement.getText e' true Sample.passive)
     = Return Sample.power.
Proof.
  split.
  - apply (generic_roundtrip (DomElement.new "signal" "VCC") "role"
             Sample.power Sample.passive); [discriminate|reflexivity].
  - apply (generic_roundtrip (DomElement.new "role" "") "role"
             Sample.power Sample.passive); [discriminate|reflexivity..].
Defined.

Section ComponentSignalAssignment.

Import ComponentSignal.

Context {Uuid SignalRole : Type}.
Context `{EqDecision Uuid} `{EqDecision SignalRole}.
Context `{SerializableObject Uuid} `{SerializableObject SignalRole}.
Variable isNull : Uuid -> bool.
Variable Uuid_default : Uuid.
Variable SignalRole_default : SignalRole.

#[local] Abbreviation Sig := (ComponentSignal.t Uuid SignalRole).

(** X12.  [operator==] holds exactly of two signals with the same seven
    fields. *)
Theorem eqb_true_iff (lhs rhs : Sig) : eqb lhs rhs = true <-> lhs = rhs.
Proof.
  destruct lhs, rhs. unfold eqb.
  cbn [mUuid mName mRole mForcedNetName mIsRequired mIsNegated mIsClock].
  split.
  - intros Heq. repeat case_bool_decide; simplify_eq/=; done.
  - intros [= -> -> -> -> -> -> ->]. by rewrite !bool_decide_eq_true_2.
Qed.

Lemma emitted_nil {A} `{EqDecision A} (new old : A) (changed : @Signal SignalRole) :
  emitted new old changed = [] <-> new = old.
Proof. unfold emitted. case_bool_decide; split; done. Qed.

Lemma setter_results (s : Sig) :
  (forall name, setName s name
     = (mk (mUuid s) name (mRole s) (mForcedNetName s)
           (mIsRequired s) (mIsNegated s) (mIsClock s),
        emitted name (mName s) (nameChanged name)))
  /\ (forall role, setRole s role
     = (mk (mUuid s) (mName s) role (mForcedNetName s)
           (mIsRequired s) (mIsNegated s) (mIsClock s),
        emitted role (mRole s) (roleChanged role)))
  /\ (forall name, setForcedNetName s name
     = (mk (mUuid s) (mName s) (mRole s) name
           (mIsRequired s) (mIsNegated s) (mIsClock s),
        emitted name (mForcedNetName s) (forcedNetNameChanged name)))
  /\ (forall required, setIsRequired s required
     = (mk (mUuid s) (mName s) (mRole s) (mForcedNetName s)
           required (mIsNegated s) (mIsClock s),
        emitted required (mIsRequired s) (isRequiredChanged required)))
  /\ (forall negated, setIsNegated s negated
     = (mk (mUuid s) (mName s) (mRole s) (mForcedNetName s)
           (mIsRequired s) negated (mIsClock s),
        emitted negated (mIsNegated s) (isNegatedChanged negated)))
  /\ (forall clock, setIsClock s clock
     = (mk (mUuid s) (mName s) (mRole s) (mForcedNetName s)
           (mIsRequired s) (mIsNegated s) clock,
        emitted clock (mIsClock s) (isClockChanged clock))).
Proof.
  destruct s. unfold emitted.
  repeat split; intros;
    unfold setName, setRole, setForcedNetName, setIsRequired, setIsNegated,
      setIsClock;
    cbn [mUuid mName mRole mForcedNetName mIsRequired mIsNegated mIsClock];
    case_bool_decide; subst; done.
Qed.

Lemma assign_unfold (lhs rhs : Sig) :
  assign lhs rhs
  = (rhs,
     ((if bool_decide (mUuid lhs = mUuid rhs) then [] else [edited])
        ++ emitted (mName rhs) (mName lhs) (nameChanged (mName rhs))
        ++ emitted (mRole rhs) (mRole lhs) (roleChanged (mRole rhs))
        ++ emitted (mForcedNetName rhs) (mForcedNetName lhs)
             (forcedNetNameChanged (mForcedNetName rhs))
        ++ emitted (mIsRequired rhs) (mIsRequired lhs)
             (isRequiredChanged (mIsRequired rhs))
        ++ emitted (mIsNegated rhs) (mIsNegated lhs)
             (isNegatedChanged (mIsNegated rhs))
        ++ emitted (mIsClock rhs) (mIsClock lhs)
             (isClockChanged (mIsClock rhs)))%list).
Proof.
  unfold assign.
  set (r0 := if negb (bool_decide (mUuid lhs = mUuid rhs)) then _ else _).
  assert (Hr0 : r0 = (mk (mUuid rhs) (mName lhs) (mRole lhs) (mForcedNetName lhs)
                         (mIsRequired lhs) (mIsNegated lhs) (mIsClock lhs),
                      if bool_decide (mUuid lhs = mUuid rhs) then [] else [edited])).
  { subst r0. case_bool_decide as Hu; cbn [negb]; [|done].
    destruct lhs. cbn in *. by subst. }
  rewrite Hr0. clear r0 Hr0. cbv zeta.
  destruct (setter_results
              (mk (mUuid rhs) (mName lhs) (mRole lhs) (mForcedNetName lhs)
                  (mIsRequired lhs) (mIsNegated lhs) (mIsClock lhs)))
    as (-> & _).
  cbn [fst snd mUuid mName mRole mForcedNetName mIsRequired mIsNegated mIsClock].
  destruct (setter_results
              (mk (mUuid rhs) (mName rhs) (mRole lhs) (mForcedNetName lhs)
                  (mIsRequired lhs) (mIsNegated lhs) (mIsClock lhs)))
    as (_ & -> & _).
  cbn [fst snd mUuid mName mRole mForcedNetName mIsRequired mIsNegated mIsClock].
  destruct (setter_results
              (mk (mUuid rhs) (mName rhs) (mRole rhs) (mForcedNetName lhs)
                  (mIsRequired lhs) (mIsNegated lhs) (mIsClock lhs)))
    as (_ & _ & -> & _).
  cbn [fst snd mUuid mName mRole mForcedNetName mIsRequired mIsNegated mIsClock].
  destruct (setter_results
              (mk (mUuid rhs) (mName rhs) (mRole rhs) (mForcedNetName rhs)
                  (mIsRequired lhs) (mIsNegated lhs) (mIsClock lhs)))
    as (_ & _ & _ & -> & _).
  cbn [fst snd mUuid mName mRole mForcedNetName mIsRequired mIsNegated mIsClock].
  destruct (setter_results
              (mk (mUuid rhs) (mName rhs) (mRole rhs) (mForcedNetName rhs)
                  (mIsRequired rhs) (mIsNegated lhs) (mIsClock lhs)))
    as (_ & _ & _ & _ & -> & _).
  cbn [fst snd mUuid mName mRole mForcedNetName mIsRequired mIsNegated mIsClock].
  destruct (setter_results
              (mk (mUuid rhs) (mName rhs) (mRole rhs) (mForcedNetName rhs)
                  (mIsRequired rhs) (mIsNegated rhs) (mIsClock lhs)))
    as (_ & _ & _ & _ & _ & ->).
  cbn [fst snd mUuid mName mRole mForcedNetName mIsRequired mIsNegated mIsClock].
  by destruct rhs.
Qed.

Lemma ends_edited_app (l1 l2 : list (@Signal SignalRole)) :
  l1 = [] \/ last l1 = Some edited ->
  l2 = [] \/ last l2 = Some edited ->
  (l1 ++ l2)%list = [] \/ last (l1 ++ l2)%list = Some edited.
Proof.
  intros H1 [->|H2].
  - by rewrite app_nil_r.
  - right. rewrite last_app. by rewrite H2.
Qed.

Lemma ends_edited_emitted {A} `{EqDecision A} (new old : A)
    (changed : @Signal SignalRole) :
  emitted new old changed = []
  \/ last (emitted new old changed) = Some edited.
Proof. unfold emitted. case_bool_decide; auto. Qed.

(** X13.  After [lhs = rhs] the left signal has all fields of [rhs].  The
    signals emitted are [edited] for a different uuid, then for each other
    field that differs its signal followed by [edited], in the order name,
    role, forced net name, required, negated, clock.  Nothing is emitted
    exactly when the two signals were equal, and otherwise the last signal
    is [edited]. *)
Theorem assign_result (lhs rhs : Sig) :
  (assign lhs rhs).1 = rhs
  /\ (assign lhs rhs).2
     = ((if bool_decide (mUuid lhs = mUuid rhs) then [] else [edited])
        ++ emitted (mName rhs) (mName lhs) (nameChanged (mName rhs))
        ++ emitted (mRole rhs) (mRole lhs) (roleChanged (mRole rhs))
        ++ emitted (mForcedNetName rhs) (mForcedNetName lhs)
             (forcedNetNameChanged (mForcedNetName rhs))
        ++ emitted (mIsRequired rhs) (mIsRequired lhs)
             (isRequiredChanged (mIsRequired rhs))
        ++ emitted (mIsNegated rhs) (mIsNegated lhs)
             (isNegatedChanged (mIsNegated rhs))
        ++ emitted (mIsClock rhs) (mIsClock lhs)
             (isClockChanged (mIsClock rhs)))%list
  /\ ((assign lhs rhs).2 = [] <-> lhs = rhs)
  /\ (lhs <> rhs -> last (assign lhs rhs).2 = Some edited).
Proof.
  rewrite assign_unfold. cbn [fst snd].
  split; [done|]. split; [done|].
  assert (Hnil :
    ((if bool_decide (mUuid lhs = mUuid rhs) then [] else [edited])
        ++ emitted (mName rhs) (mName lhs) (nameChanged (mName rhs))
        ++ emitted (mRole rhs) (mRole lhs) (roleChanged (mRole rhs))
        ++ emitted (mForcedNetName rhs) (mForcedNetName lhs)
             (forcedNetNameChanged (mForcedNetName rhs))
        ++ emitted (mIsRequired rhs) (mIsRequired lhs)
             (isRequiredChanged (mIsRequired rhs))
        ++ emitted (mIsNegated rhs) (mIsNegated lhs)
             (isNegatedChanged (mIsNegated rhs))
        ++ emitted (mIsClock rhs) (mIsClock lhs)
             (isClockChanged (mIsClock rhs)))%list = [] <-> lhs = rhs).
  { rewrite !app_nil, !emitted_nil. split.
    - intros (Hu & Hn & Hr & Hf & Hq & Hg & Hc).
      case_bool_decide; [|done]. destruct lhs, rhs. cbn in *. by subst.
    - intros ->. by rewrite bool_decide_eq_true_2. }
  split; [exact Hnil|].
  intros Hne.
  match goal with
  | |- last ?l = _ => assert (Hends : l = [] \/ last l = Some edited)
  end.
  { repeat apply ends_edited_app; try apply ends_edited_emitted.
    case_bool_decide; auto. }
  destruct Hends as [Hempty|Hlast]; [|done].
  by apply Hnil in Hempty.
Qed.

Lemma bind_Return {A B} (m : Result A) (f : A -> Result B) b :
  m ≫= f = Return b -> exists a, m = Return a /\ f a = Return b.
Proof. destruct m; [eauto|done..]. Qed.

Lemma getAttribute_Return {T} `{DomElement.Conversion T} e name
    throwIfEmpty (d x : T) :
  DomElement.getAttribute e name throwIfEmpty d = Return x ->
  exists value,
    DomElement.mAttributes e !! name = Some value
    /\ DomElement.stringToObject value throwIfEmpty d = Return x.
Proof.
  unfold DomElement.getAttribute.
  destruct (DomElement.mAttributes e !! name) as [value|]; [|done].
  intros Hx. exists value. split; [done|].
  by destruct (DomElement.stringToObject value throwIfEmpty d).
Qed.

Lemma getText_Return {T} `{DomElement.Conversion T} e throwIfEmpty (d x : T) :
  DomElement.getText e throwIfEmpty d = Return x ->
  DomElement.hasChilds e = false
  /\ DomElement.stringToObject (DomElement.mText e) throwIfEmpty d = Return x.
Proof.
  unfold DomElement.getText.
  destruct (DomElement.hasChilds e); [done|].
  intros Hx. split; [done|].
  by destruct (DomElement.stringToObject (DomElement.mText e) throwIfEmpty d).
Qed.

Lemma stringToObject_bool_required value (d b : bool) :
  DomElement.stringToObject value true d = Return b ->
  value = DomElement.objectToString b.
Proof.
  change (DomElement.stringToObject value true d)
    with (DomElement.stringToObject_bool value true d).
  rewrite stringToObject_bool_decode.
  unfold ValueCodec.decode, ValueCodec.parseBool, QString.eqb.
  destruct (QString.isEmpty value); [done|].
  repeat case_bool_decide; intros [= <-]; by subst.
Qed.

Lemma stringToObject_generic_required {T} `{SerializableObject T} value (d x : T) :
  DomElement.stringToObject value true d = Return x ->
  value <> "" /\ deserializeFromString value = Return x.
Proof.
  rewrite stringToObject_generic_unfold.
  destruct value; [done|]. by cbn [QString.isEmpty].
Qed.

(** X14.  A signal is constructed from an element only if the element has
    no children, a text that is not empty (the name), all six attributes,
    [forced_net_name] included, a uuid and a role text that are not empty
    and deserialize, and the three flags written as [true] or [false]; the
    signal constructed is valid. *)
Theorem fromDomElement_Return (e : DomElement.t) (s : Sig)
    (Hs : fromDomElement isNull Uuid_default SignalRole_default e = Return s) :
  checkAttributesValidity isNull s = true
  /\ DomElement.hasChilds e = false
  /\ DomElement.mText e = mName s
  /\ (exists value,
        DomElement.mAttributes e !! "uuid" = Some value /\ value <> ""
        /\ deserializeFromString value = Return (mUuid s))
  /\ (exists value,
        DomElement.mAttributes e !! "role" = Some value /\ value <> ""
        /\ deserializeFromString value = Return (mRole s))
  /\ DomElement.mAttributes e !! "forced_net_name" = Some (mForcedNetName s)
  /\ DomElement.mAttributes e !! "required"
     = Some (DomElement.objectToString (mIsRequired s))
  /\ DomElement.mAttributes e !! "negated"
     = Some (DomElement.objectToString (mIsNegated s))
  /\ DomElement.mAttributes e !! "clock"
     = Some (DomElement.objectToString (mIsClock s)).
Proof.
  unfold fromDomElement in Hs.
  apply bind_Return in Hs as (uuid & Huuid & Hs).
  apply bind_Return in Hs as (name & Hname & Hs).
  apply bind_Return in Hs as (role & Hrole & Hs).
  apply bind_Return in Hs as (forced & Hforced & Hs).
  apply bind_Return in Hs as (required & Hrequired & Hs).
  apply bind_Return in Hs as (negated & Hnegated & Hs).
  apply bind_Return in Hs as (clock & Hclock & Hs).
  destruct (checkAttributesValidity isNull
              (mk uuid name role forced required negated clock)) eqn:Hvalid;
    [|done].
  cbn [negb] in Hs. injection Hs as <-.
  cbn [mUuid mName mRole mForcedNetName mIsRequired mIsNegated mIsClock].
  apply getAttribute_Return in Huuid as (vu & Hlu & Hu).
  apply getAttribute_Return in Hrole as (vr & Hlr & Hr).
  apply getAttribute_Return in Hforced as (vf & Hlf & Hf).
  apply getAttribute_Return in Hrequired as (vq & Hlq & Hq).
  apply getAttribute_Return in Hnegated as (vg & Hlg & Hg).
  apply getAttribute_Return in Hclock as (vc & Hlc & Hc).
  apply getText_Return in Hname as (Hleaf & Hname).
  apply stringToObject_generic_required in Hu as [Hune Hu].
  apply stringToObject_generic_required in Hr as [Hrne Hr].
  apply stringToObject_bool_required in Hq as ->.
  apply stringToObject_bool_required in Hg as ->.
  apply stringToObject_bool_required in Hc as ->.
  assert (vf = forced) as ->.
  { change (DomElement.stringToObject_QString vf false "" = Return forced) in Hf.
    unfold DomElement.stringToObject_QString, Q_ASSERT in Hf.
    change (QString.eqb "" "") with true in Hf. cbv beta iota in Hf.
    rewrite andb_false_r in Hf. by injection Hf. }
  assert (DomElement.mText e = name) as Htext.
  { change (DomElement.stringToObject_QString (DomElement.mText e) true ""
            = Return name) in Hname.
    unfold DomElement.stringToObject_QString, Q_ASSERT in Hname.
    change (QString.eqb "" "") with true in Hname. cbv beta iota in Hname.
    destruct (QString.isEmpty (DomElement.mText e) && true); [done|].
    by injection Hname. }
  repeat split; eauto.
Qed.

(** X15.  [serialize] throws [LogicError] for an invalid signal, whatever
    the element; for a valid signal it is refused on an element with
    children, and on an element without children it sets the text to the
    name and the six attributes to the texts of the fields, overwriting
    attributes of these names and keeping the tag name and every other
    attribute. *)
Theorem serialize_outcome (s : Sig) (root : DomElement.t) :
  (checkAttributesValidity isNull s = false ->
   serialize isNull s root = Throw (LogicError NoMessage))
  /\ (checkAttributesValidity isNull s = true ->
      DomElement.hasChilds root = true ->
      serialize isNull s root = AssertFailed)
  /\ (checkAttributesValidity isNull s = true ->
      DomElement.hasChilds root = false ->
      exists e,
        serialize isNull s root = Return e
        /\ DomElement.getName e = DomElement.getName root
        /\ DomElement.mText e = mName s
        /\ DomElement.getChilds e = []
        /\ DomElement.mAttributes e !! "uuid"
           = Some (serializeToString (mUuid s))
        /\ DomElement.mAttributes e !! "role"
           = Some (serializeToString (mRole s))
        /\ DomElement.mAttributes e !! "forced_net_name"
           = Some (mForcedNetName s)
        /\ DomElement.mAttributes e !! "required"
           = Some (DomElement.objectToString (mIsRequired s))
        /\ DomElement.mAttributes e !! "negated"
           = Some (DomElement.objectToString (mIsNegated s))
        /\ DomElement.mAttributes e !! "clock"
           = Some (DomElement.objectToString (mIsClock s))
        /\ (forall other,
              other ∉ ["uuid"; "role"; "forced_net_name"; "required";
                       "negated"; "clock"] ->
              DomElement.mAttributes e !! other
              = DomElement.mAttributes root !! other)).
Proof.
  unfold serialize, DomElement.setText, DomElement.setAttribute,
    DomElement.hasChilds, Q_ASSERT.
  cbn [DomElement.mChilds DomElement.mName DomElement.mText
       DomElement.mAttributes].
  split; [|split].
  - by intros ->.
  - intros -> Hc. cbn [negb]. by destruct (DomElement.mChilds root).
  - intros -> Hc. cbn [negb].
    destruct (DomElement.mChilds root) as [|c cs] eqn:Hcs; [|done].
    cbn [negb]. eexists. split; [reflexivity|].
    unfold DomElement.getName, DomElement.getChilds.
    cbn [DomElement.mChilds DomElement.mName DomElement.mText
         DomElement.mAttributes].
    repeat split;
      try (repeat first [rewrite lookup_insert_eq
                        | rewrite lookup_insert_ne by done]; reflexivity).
    intros other Hother.
    rewrite !not_elem_of_cons in Hother.
    destruct Hother as (? & ? & ? & ? & ? & ? & _).
    by rewrite !lookup_insert_ne by done.
Qed.

End ComponentSignalAssignment.

Section ProjectMetadataAttributes.

Import ProjectMetadata.

Context {AttributeList : Type} `{EqDecision AttributeList}.
Variable AttributeList_contains : AttributeList -> string -> bool.
Variable AttributeList_getValueTr : AttributeList -> string -> string.
Variable toString_SystemLocaleShortDate : QDateTime.t -> string.
Variable AttributeList_serialize :
  AttributeList -> DomElement.t -> Result DomElement.t.

#[local] Abbreviation Metadata := (ProjectMetadata.t AttributeList).

Lemma setters_fields (m : Metadata) :
  (forall newName,
     setName m newName
     = mk (mXmlFilepath m) newName (mAuthor m) (mVersion m) (mCreated m)
          (mLastModified m) (mAttributes m))
  /\ (forall newAuthor,
     setAuthor m newAuthor
     = mk (mXmlFilepath m) (mName m) newAuthor (mVersion m) (mCreated m)
          (mLastModified m) (mAttributes m))
  /\ (forall newVersion,
     setVersion m newVersion
     = mk (mXmlFilepath m) (mName m) (mAuthor m) newVersion (mCreated m)
          (mLastModified m) (mAttributes m))
  /\ (forall newAttributes,
     setAttributes m newAttributes
     = mk (mXmlFilepath m) (mName m) (mAuthor m) (mVersion m) (mCreated m)
          (mLastModified m) newAttributes).
Proof.
  destruct m. unfold setName, setAuthor, setVersion, setAttributes.
  cbn [mXmlFilepath mName mAuthor mVersion mCreated mLastModified mAttributes].
  repeat split; intros; case_bool_decide; subst; done.
Qed.

(** X16.  Each of [setName], [setAuthor], [setVersion] and [setAttributes]
    returns the metadata with that field equal to the argument and every
    other field, the file path and the two times included, unchanged. *)
Theorem setters_set_one_field (m : Metadata) :
  (forall newName,
     setName m newName
     = mk (mXmlFilepath m) newName (mAuthor m) (mVersion m) (mCreated m)
          (mLastModified m) (mAttributes m))
  /\ (forall newAuthor,
     setAuthor m newAuthor
     = mk (mXmlFilepath m) (mName m) newAuthor (mVersion m) (mCreated m)
          (mLastModified m) (mAttributes m))
  /\ (forall newVersion,
     setVersion m newVersion
     = mk (mXmlFilepath m) (mName m) (mAuthor m) newVersion (mCreated m)
          (mLastModified m) (mAttributes m))
  /\ (forall newAttributes,
     setAttributes m newAttributes
     = mk (mXmlFilepath m) (mName m) (mAuthor m) (mVersion m) (mCreated m)
          (mLastModified m) newAttributes).
Proof. apply setters_fields. Qed.

(** X17.  [setName] does not validate: the metadata is valid after it
    exactly when the new name is not empty, and after [setName] with the
    empty name [serialize] throws [LogicError] whatever the element.  The
    other setters keep the validity. *)
Theorem validity_depends_on_name (m : Metadata) :
  (forall newName,
     checkAttributesValidity (setName m newName)
     = negb (QString.isEmpty newName))
  /\ (forall newAuthor,
     checkAttributesValidity (setAuthor m newAuthor)
     = checkAttributesValidity m)
  /\ (forall newVersion,
     checkAttributesValidity (setVersion m newVersion)
     = checkAttributesValidity m)
  /\ (forall newAttributes,
     checkAttributesValidity (setAttributes m newAttributes)
     = checkAttributesValidity m)
  /\ (forall root,
     serialize AttributeList_serialize (setName m "") root
     = Throw (LogicError NoMessage)).
Proof.
  destruct (setters_fields m) as (Hn & Ha & Hv & Hl).
  repeat split; intros.
  - rewrite Hn. unfold checkAttributesValidity. cbn [mName].
    by destruct (QString.isEmpty newName).
  - by rewrite Ha.
  - by rewrite Hv.
  - by rewrite Hl.
  - unfold serialize. rewrite Hn. reflexivity.
Qed.

(** X18.  [getAttributeValue] ignores [passToParents], leaves [value] as it
    is whenever it returns false, returns false for every namespace other
    than "PRJ" and the empty one, and treats these two alike. *)
Theorem getAttributeValue_namespace (m : Metadata) (attrNS attrKey : string)
    (passToParents : bool) (value : string) :
  getAttributeValue AttributeList_contains AttributeList_getValueTr
    toString_SystemLocaleShortDate m attrNS attrKey passToParents value
  = getAttributeValue AttributeList_contains AttributeList_getValueTr
      toString_SystemLocaleShortDate m attrNS attrKey (negb passToParents) value
  /\ ((getAttributeValue AttributeList_contains AttributeList_getValueTr
         toString_SystemLocaleShortDate m attrNS attrKey passToParents value).1
      = false ->
      (getAttributeValue AttributeList_contains AttributeList_getValueTr
         toString_SystemLocaleShortDate m attrNS attrKey passToParents value).2
      = value)
  /\ (attrNS <> "PRJ" -> attrNS <> "" ->
      getAttributeValue AttributeList_contains AttributeList_getValueTr
        toString_SystemLocaleShortDate m attrNS attrKey passToParents value
      = (false, value))
  /\ getAttributeValue AttributeList_contains AttributeList_getValueTr
       toString_SystemLocaleShortDate m "" attrKey passToParents value
     = getAttributeValue AttributeList_contains AttributeList_getValueTr
         toString_SystemLocaleShortDate m "PRJ" attrKey passToParents value.
Proof.
  unfold getAttributeValue, QString.eqb.
  split; [done|]. split; [|split; [|done]].
  - by repeat case_match.
  - intros Hprj Hempty. rewrite bool_decide_eq_false_2 by done.
    by destruct attrNS.
Qed.

(** X19.  In the project namespace the keys NAME and AUTHOR give the name
    and the author whatever the attribute list contains, and a key other
    than the four built-in ones (VERSION, for one) is looked up in the
    attribute list only. *)
Theorem getAttributeValue_keys (m : Metadata) (attrKey : string)
    (passToParents : bool) (value : string) :
  getAttributeValue AttributeList_contains AttributeList_getValueTr
    toString_SystemLocaleShortDate m "PRJ" "NAME" passToParents value
  = (true, mName m)
  /\ getAttributeValue AttributeList_contains AttributeList_getValueTr
       toString_SystemLocaleShortDate m "PRJ" "AUTHOR" passToParents value
     = (true, mAuthor m)
  /\ (attrKey ∉ ["NAME"; "AUTHOR"; "CREATED"; "LAST_MODIFIED"] ->
      getAttributeValue AttributeList_contains AttributeList_getValueTr
        toString_SystemLocaleShortDate m "PRJ" attrKey passToParents value
      = if AttributeList_contains (mAttributes m) attrKey
        then (true, AttributeList_getValueTr (mAttributes m) attrKey)
        else (false, value)).
Proof.
  split; [done|]. split; [done|].
  rewrite !not_elem_of_cons. intros (? & ? & ? & ? & _).
  unfold getAttributeValue, QString.eqb.
  rewrite (bool_decide_eq_true_2 ("PRJ" = "PRJ")) by done. cbn [orb].
  by rewrite !bool_decide_eq_false_2 by done.
Qed.

End ProjectMetadataAttributes.

Section CmdProjectSetMetadataStaging.

Import CmdProjectSetMetadata.

Context {AttributeList : Type} `{EqDecision AttributeList}.
Variable AttributeList_default : AttributeList.

(** The three [perform] functions return the command and the project as
    they were given. *)
Lemma perform_never_writes (c : CmdProjectSetMetadata.t AttributeList)
    (p : Project.t AttributeList) :
  performRedo c p = Return (c, p)
  /\ performUndo c p = Return (c, p)
  /\ performExecute c p
     = Return (negb (bool_decide (mNewName c = mOldName c
                                  /\ mNewAuthor c = mOldAuthor c
                                  /\ mNewVersion c = mOldVersion c
                                  /\ mNewAttributes c = mOldAttributes c)),
               (c, p)).
Proof.
  split; [done|]. split; [done|].
  unfold performExecute, performRedo. cbn.
  repeat case_bool_decide; first [done | exfalso; tauto].
Qed.

(** X20.  For a command created for any project and staged through its four
    setters, [performExecute] on any project leaves the project as it is
    and reports a change exactly when a staged value differs from the empty
    string or the empty attribute list: the values of the project play no
    part. *)
Theorem staged_values_decide_changed (created executed : Project.t AttributeList)
    (name author version : string) (attributes : AttributeList) :
  (c ← setName (new AttributeList_default created) name;
   c ← setAuthor c author;
   c ← setVersion c version;
   c ← setAttributes c attributes;
   r ← performExecute c executed;
   Return (r.1, r.2.2))
  = Return (negb (bool_decide (name = "" /\ author = "" /\ version = ""
                               /\ attributes = AttributeList_default)),
            executed).
Proof.
  cbn. unfold performExecute, performRedo. cbn.
  repeat case_bool_decide; first [done | exfalso; tauto].
Qed.

End CmdProjectSetMetadataStaging.

Section MoreExamples.

Lemma assign_result_witness :
  last (ComponentSignal.assign
          (ComponentSignal.mk "6da06b2b-7806-4e68-bd0c-e9f18eb2f9d8" "GND"
             Sample.power "" true false false)
          Sample.signal).2 = Some ComponentSignal.edited.
Proof.
  apply (assign_result
           (ComponentSignal.mk "6da06b2b-7806-4e68-bd0c-e9f18eb2f9d8" "GND"
              Sample.power "" true false false) Sample.signal).
  discriminate.
Defined.

Lemma fromDomElement_Return_witness :
  ComponentSignal.checkAttributesValidity Sample.isNull Sample.signal = true
  /\ DomElement.mText Sample.element = "VCC"
  /\ DomElement.mAttributes Sample.element !! "forced_net_name" = Some "VCC".
Proof.
  pose proof (fromDomElement_Return Sample.isNull "" Sample.passive
                Sample.element Sample.signal eq_refl)
    as (Hvalid & _ & Htext & _ & _ & Hforced & _).
  split; [exact Hvalid|]. split; [exact Htext|exact Hforced].
Defined.

Lemma serialize_outcome_witness :
  ComponentSignal.serialize Sample.isNull
    (ComponentSignal.mk "" "VCC" Sample.power "" true false false)
    (DomElement.new "signal" "") = Throw (LogicError NoMessage)
  /\ ComponentSignal.serialize Sample.isNull Sample.signal
       (DomElement.mk "signals" "" [DomElement.new "signal" ""] ∅)
     = AssertFailed
  /\ exists e,
       ComponentSignal.serialize Sample.isNull Sample.signal
         (DomElement.setAttribute
            (DomElement.setAttribute (DomElement.new "signal" "") "clock" true)
            "comment" "supply") = Return e
       /\ DomElement.mAttributes e !! "clock" = Some "false"
       /\ DomElement.mAttributes e !! "comment" = Some "supply".
Proof.
  split; [|split].
  - apply (serialize_outcome Sample.isNull
             (ComponentSignal.mk "" "VCC" Sample.power "" true false false)
             (DomElement.new "signal" "")).
    reflexivity.
  - apply (serialize_outcome Sample.isNull Sample.signal
             (DomElement.mk "signals" "" [DomElement.new "signal" ""] ∅));
      reflexivity.
  - destruct (serialize_outcome Sample.isNull Sample.signal
                (DomElement.setAttribute
                   (DomElement.setAttribute (DomElement.new "signal" "")
                      "clock" true) "comment" "supply")) as (_ & _ & Hok).
    destruct (Hok eq_refl eq_refl)
      as (e & He & _ & _ & _ & _ & _ & _ & _ & _ & Hclock & Hother).
    exists e. split; [exact He|]. split; [exact Hclock|].
    rewrite Hother; [reflexivity|].
    rewrite !not_elem_of_cons. repeat split; try discriminate.
    apply not_elem_of_nil.
Defined.

Lemma getAttributeValue_namespace_witness :
  ProjectMetadata.getAttributeValue Sample.contains Sample.getValueTr
    QDateTime.toString_ISODate
    (Sample.metadata "old name" "author" "v1" [("NAME", "shadowed")])
    "CMP" "NAME" true "unchanged" = (false, "unchanged").
Proof.
  apply (getAttributeValue_namespace Sample.contains Sample.getValueTr
           QDateTime.toString_ISODate
           (Sample.metadata "old name" "author" "v1" [("NAME", "shadowed")])
           "CMP" "NAME" true "unchanged"); discriminate.
Defined.

Lemma getAttributeValue_keys_witness :
  ProjectMetadata.getAttributeValue Sample.contains Sample.getValueTr
    QDateTime.toString_ISODate
    (Sample.metadata "old name" "author" "v1" [("VERSION", "v2")])
    "PRJ" "VERSION" false "unchanged" = (true, "v2").
Proof.
  pose proof (getAttributeValue_keys Sample.contains Sample.getValueTr
                QDateTime.toString_ISODate
                (Sample.metadata "old name" "author" "v1" [("VERSION", "v2")])
                "VERSION" false "unchanged") as (_ & _ & Hkey).
  rewrite Hkey; [reflexivity|].
  rewrite !not_elem_of_cons. repeat split; try discriminate.
  apply not_elem_of_nil.
Defined.

End MoreExamples.
